(** * django-netjsongraph: the [AbstractNode] model

    A shallow embedding of [django_netjsongraph/base/node.py] and the
    properties of its address normalisation, address truncation, derived
    accessors, serialisation, identity lookup and expiration sweep.

    Layout:
    - [PyStr]: the [str] methods the module calls;
    - [Node] objects, with the two [cached_property] slots and a heap of
      [dict] objects shared by reference;
    - the node table and the link table of the persistence layer;
    - the methods of [AbstractNode], in the order of the source;
    - the properties. *)

From Stdlib Require Import ZArith Ascii String List Bool Lia.
From stdpp Require Import base option list strings pretty gmap.

Local Open Scope Z_scope.

(* ===================================================================== *)
(** ** Python strings *)
(* ===================================================================== *)

(** A [str] is a [string]; the methods below are the ones [node.py] calls,
    with the argument shapes it calls them with (every [replace] and
    [split] pattern in the source is a single character). *)
Module PyStr.

(** [len(s)] *)
Definition len (s : string) : Z := Z.of_nat (String.length s).

(** truth value of a [str]: non-empty *)
Definition truthy (s : string) : bool :=
  match s with
  | EmptyString => false
  | String _ _ => true
  end.

(** [s.replace(old, new)] for a one-character [old] *)
Fixpoint replace (old : ascii) (new : string) (s : string) : string :=
  match s with
  | EmptyString => EmptyString
  | String c t =>
      if Ascii.eqb c old then new +:+ replace old new t
      else String c (replace old new t)
  end.

(** [s.startswith(p)] *)
Fixpoint startswith (p s : string) : bool :=
  match p, s with
  | EmptyString, _ => true
  | String _ _, EmptyString => false
  | String a p', String b s' => Ascii.eqb a b && startswith p' s'
  end.

(** [s.endswith(p)] *)
Fixpoint endswith (p s : string) : bool :=
  String.eqb s p ||
  match s with
  | EmptyString => false
  | String _ t => endswith p t
  end.

(** [p in s], the substring test *)
Fixpoint contains (p s : string) : bool :=
  startswith p s ||
  match s with
  | EmptyString => false
  | String _ t => contains p t
  end.

(** [s[1:]] *)
Definition drop_first (s : string) : string :=
  match s with
  | EmptyString => EmptyString
  | String _ t => t
  end.

(** [s[0:-1]] *)
Fixpoint drop_last (s : string) : string :=
  match s with
  | EmptyString => EmptyString
  | String c t =>
      match t with
      | EmptyString => EmptyString
      | String _ _ => String c (drop_last t)
      end
  end.

(** [s.split(sep)] for a one-character [sep]: never the empty list *)
Fixpoint split (sep : ascii) (s : string) : list string :=
  match s with
  | EmptyString => [EmptyString]
  | String c t =>
      if Ascii.eqb c sep then EmptyString :: split sep t
      else match split sep t with
           | h :: r => String c h :: r
           | [] => [String c EmptyString]
           end
  end.

(** [sep.join(l)] *)
Fixpoint join (sep : string) (l : list string) : string :=
  match l with
  | [] => EmptyString
  | x :: r =>
      match r with
      | [] => x
      | _ :: _ => x +:+ sep +:+ join sep r
      end
  end.

(** [c in s] for one character *)
Fixpoint has_char (c : ascii) (s : string) : bool :=
  match s with
  | EmptyString => false
  | String d t => Ascii.eqb d c || has_char c t
  end.

(** [c * n] *)
Fixpoint repeat (s : string) (n : nat) : string :=
  match n with
  | O => EmptyString
  | S k => s +:+ repeat s k
  end.

End PyStr.

(* ===================================================================== *)
(** ** Objects, values and the heap *)
(* ===================================================================== *)

(** Exceptions the modelled code can raise. *)
Inductive exn := IndexError | TypeError | ValueError | OverflowError.

Inductive result (A : Type) :=
| Ok (a : A)
| Raise (e : exn).
Arguments Ok {A} a.
Arguments Raise {A} e.

(** Addresses of [dict] objects. *)
Abbreviation loc := nat.

(** The Python values that reach a NetJSON mapping.  A [dict] is held by
    reference: two occurrences of [VRef r] are the same object. *)
Inductive value :=
| VNone
| VStr (s : string)
| VList (l : list string)
| VTime (t : Z)
| VRef (r : loc).

(** A [dict] / [OrderedDict] with [str] keys, in insertion order. *)
Abbreviation pydict := (list (string * value)).

(** The store of [dict] objects.  A reference that was never allocated
    reads as the empty [dict]; the states of interest allocate every
    reference they hold. *)
Abbreviation Heap := (gmap nat (list (string * value))).

(** [d[k]] lookup, [None] when the key is absent *)
Fixpoint dict_get (k : string) (d : pydict) : option value :=
  match d with
  | [] => None
  | (k', v) :: r => if String.eqb k' k then Some v else dict_get k r
  end.

(** [d[k] = v]: an existing key keeps its position, a new one goes last *)
Fixpoint dict_set (k : string) (v : value) (d : pydict) : pydict :=
  match d with
  | [] => [(k, v)]
  | (k', v') :: r =>
      if String.eqb k' k then (k, v) :: r else (k', v') :: dict_set k v r
  end.

(** the [dict] object behind a reference *)
Definition deref (h : Heap) (r : loc) : pydict := default [] (h !! r).

(** [obj[k] = v] on the object at [r], in place *)
Definition heap_setitem (r : loc) (k : string) (v : value) (h : Heap) : Heap :=
  <[r := dict_set k v (deref h r)]> h.

(** truth value of a Python value *)
Definition truthy_value (h : Heap) (v : value) : bool :=
  match v with
  | VNone => false
  | VStr s => PyStr.truthy s
  | VList l => match l with [] => false | _ :: _ => true end
  | VTime _ => true
  | VRef r => match deref h r with [] => false | _ :: _ => true end
  end.

(** An [AbstractNode] instance.  Timestamps are instants on an integer
    time line (microseconds, counted from [datetime.min]).  [properties] is [None] or a reference to a
    [dict] on the heap.  The last two fields are the instance slots that
    [cached_property] fills on first access. *)
Record Node := mkNode {
  pk : option Z;
  topology : Z;
  label : string;
  addresses : string;
  properties : option loc;
  created : Z;
  modified : Z;
  address_list_cache : option (list string);
  local_addresses_cache : option (option (list string))
}.

Definition set_addresses (a : string) (n : Node) : Node :=
  mkNode (pk n) (topology n) (label n) a (properties n) (created n)
         (modified n) (address_list_cache n) (local_addresses_cache n).

Definition set_address_list_cache (c : option (list string)) (n : Node) : Node :=
  mkNode (pk n) (topology n) (label n) (addresses n) (properties n)
         (created n) (modified n) c (local_addresses_cache n).

Definition set_local_addresses_cache (c : option (option (list string)))
    (n : Node) : Node :=
  mkNode (pk n) (topology n) (label n) (addresses n) (properties n)
         (created n) (modified n) (address_list_cache n) c.



(** A freshly built instance, nothing cached, not yet stored. *)
Definition new_node (topo : Z) (lbl addrs : string) (props : option loc)
    (c m : Z) : Node :=
  mkNode None topo lbl addrs props c m None None.

(* ===================================================================== *)
(** ** The persistence layer *)
(* ===================================================================== *)

(** A stored node: the columns the queries of [node.py] look at. *)
Record NodeRow := mkRow {
  row_pk : Z;
  row_topology : Z;
  row_addresses : string;
  row_modified : Z
}.

(** A stored link, by the primary keys of its two end nodes. *)
Record Link := mkLink {
  source : Z;
  target : Z
}.

Record DB := mkDB {
  nodes : list NodeRow;
  links : list Link
}.





(** How the database compares text in [addresses__contains].  The lookup
    is compiled to [LIKE]; PostgreSQL compares the characters as they are,
    SQLite ignores the case of the ASCII letters. *)
Inductive case_rule :=
| ExactCase
| AsciiCaseFolded.

(** the lower-case form of an ASCII capital, any other character itself *)
Definition like_fold_char (c : ascii) : ascii :=
  let k := nat_of_ascii c in
  if (65 <=? k)%nat && (k <=? 90)%nat then ascii_of_nat (k + 32) else c.

Fixpoint like_fold (s : string) : string :=
  match s with
  | EmptyString => EmptyString
  | String c t => String (like_fold_char c) (like_fold t)
  end.

(** the form of a text under which a case rule compares it *)
Definition folded (rule : case_rule) (s : string) : string :=
  match rule with
  | ExactCase => s
  | AsciiCaseFolded => like_fold s
  end.

(** [column__contains=p] on a column value [s] *)
Definition like_contains (rule : case_rule) (p s : string) : bool :=
  PyStr.contains (folded rule p) (folded rule s).

(** [QuerySet.first()]: without an explicit ordering the rows are ordered
    by primary key, so the match with the least key is returned. *)
Definition first (q : list NodeRow) : option NodeRow :=
  foldr (fun r acc =>
           match acc with
           | None => Some r
           | Some m => if row_pk r <=? row_pk m then Some r else Some m
           end) None q.

(** [node.delete()] on a stored node *)
Definition delete_node (r : NodeRow) (db : DB) : DB :=
  mkDB (List.filter (fun r' => negb (row_pk r' =? row_pk r)) (nodes db))
       (links db).

(** [source_link_set__isnull=True]: no link starts at the node *)
Definition source_link_set_isnull (db : DB) (r : NodeRow) : bool :=
  forallb (fun l => negb (source l =? row_pk r)) (links db).

(** [target_link_set__isnull=True]: no link ends at the node *)
Definition target_link_set_isnull (db : DB) (r : NodeRow) : bool :=
  forallb (fun l => negb (target l =? row_pk r)) (links db).

(** A value of [settings.NODE_EXPIRATION] / [settings.LINK_EXPIRATION]. *)
Inductive setting :=
| SNone
| SBool (b : bool)
| SInt (d : Z).

(** [x in [False, None]]: list membership compares with [==], and
    [0 == False] holds in Python. *)
Definition in_False_None (x : setting) : bool :=
  match x with
  | SNone => true
  | SBool b => negb b
  | SInt d => d =? 0
  end.

(** [int(x)] *)
Definition py_int (x : setting) : result Z :=
  match x with
  | SNone => Raise TypeError
  | SBool b => Ok (if b then 1 else 0)
  | SInt d => Ok d
  end.

(** [d] days, in microseconds *)
Definition timedelta_days (d : Z) : Z := d * 86400000000.

(** [timedelta(days=d)]: the day count of a [timedelta] has a magnitude of
    at most 999999999 *)
Definition timedelta (d : Z) : result Z :=
  if (-999999999 <=? d) && (d <=? 999999999) then Ok (timedelta_days d)
  else Raise OverflowError.

(** [datetime.max], 9999-12-31 23:59:59.999999, counted from [datetime.min] *)
Definition datetime_max : Z := 3652059 * 86400000000 - 1.

(** [t - delta] on a [datetime]: the result has to be a [datetime] *)
Definition datetime_sub (t delta : Z) : result Z :=
  let r := t - delta in
  if (0 <=? r) && (r <=? datetime_max) then Ok r else Raise OverflowError.

(* ===================================================================== *)
(** ** The methods of [AbstractNode] *)
(* ===================================================================== *)

(** [max_length] of the [addresses] field *)
Definition max_length : Z := 510.

(** [_format_addresses]: ensure the address format [";addr1;addr2;addr3;"] *)
Definition _format_addresses (n : Node) : Node :=
  let a := PyStr.replace ";" ";"
             (PyStr.replace " " "" (PyStr.replace "," ";" (addresses n))) in
  let a := if negb (PyStr.startswith ";" a) then ";" +:+ a else a in
  let a := if negb (PyStr.endswith ";" a) then a +:+ ";" else a in
  set_addresses a n.


(** the body of the [address_list] property *)
Definition address_list_body (n : Node) : list string :=
  let a := PyStr.replace " " "" (addresses n) in
  let a := if PyStr.startswith ";" a then PyStr.drop_first a else a in
  PyStr.split ";" (PyStr.drop_last a).

(** [address_list], a [cached_property]: the first access runs the body and
    keeps the list in the instance; later accesses return that same list. *)
Definition address_list (n : Node) : list string * Node :=
  match address_list_cache n with
  | Some l => (l, n)
  | None =>
      let l := address_list_body n in
      (l, set_address_list_cache (Some l) n)
  end.

(** [list.pop()]: the list without its last element; [None] stands for the
    [IndexError] of an empty list *)
Definition pop (l : list string) : option (list string) :=
  match l with
  | [] => None
  | _ :: _ => Some (removelast l)
  end.

(** The [while] loop of [truncate_addresses], run for at most [fuel]
    iterations: [None] when the fuel runs out, otherwise the list the loop
    leaves or the exception it raises. *)
Fixpoint truncate_loop (fuel : nat) (l : list string)
    : option (result (list string)) :=
  match fuel with
  | O => None
  | S fuel' =>
      if max_length <? PyStr.len (PyStr.join ";" l) + 2 then
        match pop l with
        | None => Some (Raise IndexError)
        | Some l' => truncate_loop fuel' l'
        end
      else Some (Ok l)
  end.

(** [truncate_addresses]: ensure the [addresses] field is not too long.
    The list the loop pops from is the very list [address_list] caches, so
    the cache ends up holding the shortened list.  The loop is given one
    more iteration than the list has elements. *)
Definition truncate_addresses (n : Node) : option (result Node) :=
  if PyStr.len (addresses n) <=? max_length then Some (Ok n)
  else
    let '(l, n1) := address_list n in
    match truncate_loop (S (length l)) l with
    | None => None
    | Some (Raise e) => Some (Raise e)
    | Some (Ok l') =>
        Some (Ok (set_addresses (PyStr.join ";" l')
                    (set_address_list_cache (Some l') n1)))
    end.

(** [netjson_id] *)
Definition netjson_id (n : Node) : result (option string * Node) :=
  if PyStr.truthy (addresses n) then
    let '(l, n1) := address_list n in
    match l with
    | x :: _ => Ok (Some x, n1)
    | [] => Raise IndexError
    end
  else Ok (None, n).

(** the body of the [local_addresses] property *)
Definition local_addresses_body (n : Node) : option (list string) * Node :=
  if PyStr.truthy (addresses n) then
    let '(l, n1) := address_list n in
    if (1 <? Z.of_nat (length l)) then (Some (tail l), n1) else (None, n1)
  else (None, n).

(** [local_addresses], a [cached_property] *)
Definition local_addresses (n : Node) : option (list string) * Node :=
  match local_addresses_cache n with
  | Some v => (v, n)
  | None =>
      let '(v, n1) := local_addresses_body n in
      (v, set_local_addresses_cache (Some v) n1)
  end.

(** [name] *)
Definition name (n : Node) : result (option string * Node) :=
  if PyStr.truthy (label n) then Ok (Some (label n), n) else netjson_id n.

Definition value_of_id (o : option string) : value :=
  match o with
  | Some s => VStr s
  | None => VNone
  end.

(** [getattr(self, attr)] for the three attributes [json] reads; the
    [properties] attribute is handed out by reference *)
Definition getattr (attr : string) (n : Node) : value * Node :=
  if String.eqb attr "label" then (VStr (label n), n)
  else if String.eqb attr "local_addresses" then
    let '(v, n1) := local_addresses n in
    (match v with Some l => VList l | None => VNone end, n1)
  else
    (match properties n with Some r => VRef r | None => VNone end, n).

(** the [for attr in [...]] loop of [json] *)
Fixpoint json_attrs (attrs : list string) (h : Heap) (netjson : pydict)
    (n : Node) : pydict * Node :=
  match attrs with
  | [] => (netjson, n)
  | attr :: rest =>
      let '(v, n1) := getattr attr n in
      let netjson1 :=
        if truthy_value h v || String.eqb attr "properties"
        then dict_set attr v netjson else netjson in
      json_attrs rest h netjson1 n1
  end.

(** [netjson['properties'][k] = v]: the item assignment goes to whatever
    object the mapping holds under ['properties'] *)
Definition set_property (k : string) (v : value) (netjson : pydict) (h : Heap)
    : result Heap :=
  match dict_get "properties" netjson with
  | Some (VRef r) => Ok (heap_setitem r k v h)
  | _ => Raise TypeError
  end.

(** What [json] returns: the mapping itself when [dict] is true, otherwise
    the text [json.dumps] makes of that mapping. *)
Inductive json_output :=
| AsDict (netjson : pydict)
| AsText (text : string).

(** [json]: a NetJSON NetworkGraph Node object.  The encoder is not part
    of the module: [dumps h m] stands for
    [json.dumps(m, cls=JSONEncoder, **kwargs)] run on the heap [h]; it
    returns the text or raises (a [ValueError] on a [dict] that contains
    itself, for one). *)
Definition json (dumps : Heap -> pydict -> result string) (dict : bool)
    (n : Node) (h : Heap) : result (json_output * Node * Heap) :=
  match netjson_id n with
  | Raise e => Raise e
  | Ok (i, n1) =>
      let netjson := [("id", value_of_id i)] in
      let '(netjson, n2) :=
        json_attrs ["label"; "local_addresses"; "properties"] h netjson n1 in
      match set_property "created" (VTime (created n2)) netjson h with
      | Raise e => Raise e
      | Ok h1 =>
          match set_property "modified" (VTime (modified n2)) netjson h1 with
          | Raise e => Raise e
          | Ok h2 =>
              if dict then Ok (AsDict netjson, n2, h2)
              else
                match dumps h2 netjson with
                | Raise e => Raise e
                | Ok text => Ok (AsText text, n2, h2)
                end
          end
      end
  end.

(** the filter shared by [get_from_address] and [count_address]:
    [filter(topology=topology, addresses__contains=';{0};'.format(address))] *)
Definition address_filter (rule : case_rule) (address : string) (topo : Z)
    (db : DB) : list NodeRow :=
  let address := ";" +:+ address +:+ ";" in
  List.filter (fun r => (row_topology r =? topo)
                        && like_contains rule address (row_addresses r))
              (nodes db).

(** [get_from_address]: the node of a topology that has the address *)
Definition get_from_address (rule : case_rule) (address : string) (topo : Z)
    (db : DB) : option NodeRow :=
  first (address_filter rule address topo db).

(** [count_address]: how many nodes of a topology have the address *)
Definition count_address (rule : case_rule) (address : string) (topo : Z)
    (db : DB) : Z :=
  Z.of_nat (length (address_filter rule address topo db)).

(** the [filter] of [delete_expired_nodes] *)
Definition expired (expiration_date : Z) (db : DB) (r : NodeRow) : bool :=
  (row_modified r <? expiration_date)
  && source_link_set_isnull db r && target_link_set_isnull db r.

(** [delete_expired_nodes]: delete the nodes that have not been connected
    to the network for more than [NODE_EXPIRATION] days.  Returns the new
    database and the lines handed to [print_info]. *)
Definition delete_expired_nodes (NODE_EXPIRATION LINK_EXPIRATION : setting)
    (now : Z) (db : DB) : result (DB * list string) :=
  if negb (in_False_None NODE_EXPIRATION)
     && negb (in_False_None LINK_EXPIRATION) then
    match py_int NODE_EXPIRATION with
    | Raise e => Raise e
    | Ok days =>
        match timedelta days with
        | Raise e => Raise e
        | Ok delta =>
            match datetime_sub now delta with
            | Raise e => Raise e
            | Ok expiration_date =>
                let expired_nodes :=
                  List.filter (expired expiration_date db) (nodes db) in
                let expired_nodes_length := length expired_nodes in
                match expired_nodes_length with
                | O => Ok (db, [])
                | S _ =>
                    Ok (foldl (fun d node => delete_node node d) db
                              expired_nodes,
                        ["Deleting " +:+ pretty (Z.of_nat expired_nodes_length)
                         +:+ " expired nodes"])
                end
            end
        end
    end
  else Ok (db, []).

(** Python's ASCII whitespace: space, [\t], [\n], [\v], [\f], [\r] and the
    four separators 28-31, the characters [str.isspace] accepts below 128 *)
Definition is_whitespace (c : ascii) : bool :=
  let k := nat_of_ascii c in
  ((9 <=? k)%nat && (k <=? 13)%nat) || ((28 <=? k)%nat && (k <=? 32)%nat).

Definition has_whitespace (s : string) : bool :=
  existsb is_whitespace (list_ascii_of_string s).

(** the shape [";...;"]: a leading and a trailing delimiter *)
Definition delimiter_bounded (s : string) : bool :=
  PyStr.startswith ";" s && PyStr.endswith ";" s.

(** the three [replace] calls of [_format_addresses] *)
Definition replaced (s : string) : string :=
  PyStr.replace ";" ";" (PyStr.replace " " "" (PyStr.replace "," ";" s)).

(** the rows that survive the deletion of every row of [es] *)
Definition survives (es : list NodeRow) (r : NodeRow) : bool :=
  forallb (fun e => negb (row_pk r =? row_pk e)) es.

(** two states of a node that differ in the cache slots at most *)
Definition same_fields (n n' : Node) : Prop :=
  pk n' = pk n /\ topology n' = topology n /\ label n' = label n
  /\ addresses n' = addresses n /\ properties n' = properties n
  /\ created n' = created n /\ modified n' = modified n.

(* ===================================================================== *)
(** ** Sample objects *)
(* ===================================================================== *)

(** a node of topology 1 with the given raw addresses, no label, no
    properties object *)
Definition sample (addrs : string) : Node :=
  new_node 1 "" addrs None 0 0.

(** 601 characters: a leading delimiter and 120 addresses of 4 characters *)
Definition long_addresses : string := ";" +:+ PyStr.repeat "aaaa;" 120.

(** one address of 600 characters, no delimiter *)
Definition one_long_address : string := PyStr.repeat "a" 600.

(** the raw input ["a<TAB>b"] *)
Definition tabbed_addresses : string := String "a" (String "009" "b").

(** the serialisation scenario: no label, one address, an empty
    [properties] object at address 0 *)
Definition serial_node : Node :=
  new_node 1 "" ";aa:bb:cc:dd:ee:ff;" (Some 0%nat) 100 200.

Definition serial_heap : Heap := {[ 0%nat := [] ]}.

(** the lookup scenario: node 1 has the single address 10.0.0.10 *)
Definition lookup_db : DB :=
  mkDB [mkRow 1 1 ";10.0.0.10;" 0; mkRow 2 1 ";10.0.0.1;10.0.0.2;" 0] [].

(** the sweep scenario, on day 100: nodes 1, 2 and 3 were last modified 40
    days ago, node 4 was modified 10 days ago; one link, from 2 to 3 *)
Definition sweep_now : Z := timedelta_days 100.

Definition sweep_db : DB :=
  mkDB [mkRow 1 1 ";a;" (timedelta_days 60); mkRow 2 1 ";b;" (timedelta_days 60);
        mkRow 3 1 ";c;" (timedelta_days 60); mkRow 4 1 ";d;" (timedelta_days 90)]
       [mkLink 2 3].

(** no link starts or ends at the node *)
Definition unlinked (db : DB) (r : NodeRow) : Prop :=
  forall l : Link, In l (links db) -> source l <> row_pk r /\ target l <> row_pk r.

(* ===================================================================== *)
(** ** The remaining methods and the vocabulary of their properties *)
(* ===================================================================== *)

Definition set_properties (p : option loc) (n : Node) : Node :=
  mkNode (pk n) (topology n) (label n) (addresses n) p (created n)
         (modified n) (address_list_cache n) (local_addresses_cache n).

(** [clean]: a [properties] that is [None] becomes a new empty [dict] *)
Definition clean (n : Node) (h : Heap) : Node * Heap :=
  match properties n with
  | None =>
      let r := fresh (dom h) in
      (set_properties (Some r) n, <[r := []]> h)
  | Some _ => (n, h)
  end.

(** [__str__]: the name of the node *)
Definition __str__ (n : Node) : result (option string * Node) := name n.

(** an address as it stands inside the canonical string: no delimiter, no
    comma, no space *)
Definition plain (a : string) : bool :=
  negb (PyStr.has_char ";" a) && negb (PyStr.has_char "," a)
  && negb (PyStr.has_char " " a).

(** the test of the [while] loop of [truncate_addresses] *)
Definition overflows (l : list string) : bool :=
  max_length <? PyStr.len (PyStr.join ";" l) + 2.

(** an address a user types: not empty, and [plain] *)
Definition nonempty_plain (a : string) : bool := PyStr.truthy a && plain a.

(** a node whose address list has been emptied, then normalised *)
Definition emptied_node : Node :=
  set_address_list_cache (Some []) (sample ";").


(** an encoder that refuses everything, and one that accepts everything *)
Definition dumps_fails (h : Heap) (m : pydict) : result string :=
  Raise ValueError.

Definition dumps_blank (h : Heap) (m : pydict) : result string := Ok "".

(** the cutoff of a sweep lies in the range of [datetime] *)
Definition cutoff_in_range (now days : Z) : Prop :=
  0 <= now - timedelta_days days <= datetime_max.

(** the last statements of [json], on the mapping [m]: hand out the
    mapping, or the text the encoder makes of it *)
Definition json_return (dumps : Heap -> pydict -> result string) (dict : bool)
    (m : pydict) (n : Node) (h : Heap) : result (json_output * Node * Heap) :=
  if dict then Ok (AsDict m, n, h)
  else
    match dumps h m with
    | Raise e => Raise e
    | Ok text => Ok (AsText text, n, h)
    end.

(** the mapping [json] builds for a node with the identity [i], the local
    addresses [la] and the [properties] object [r] *)
Definition netjson_of (i : option string) (lbl : string)
    (la : option (list string)) (r : loc) : pydict :=
  [("id", value_of_id i)]
  ++ (if PyStr.truthy lbl then [("label", VStr lbl)] else [])
  ++ match la with
     | Some (y :: t) => [("local_addresses", VList (y :: t))]
     | _ => []
     end
  ++ [("properties", VRef r)].

(* ===================================================================== *)
(** ** Facts about the string methods *)
(* ===================================================================== *)

#[local] Arguments String.append !_ _ / : simpl nomatch.

Section PyStrFacts.

Lemma len_nonneg (s : string) : 0 <= PyStr.len s.
Proof. unfold PyStr.len. lia. Qed.

Lemma len_cons (c : ascii) (s : string) :
  PyStr.len (String c s) = PyStr.len s + 1.
Proof. unfold PyStr.len. cbn [String.length]. lia. Qed.

Lemma len_append (a b : string) :
  PyStr.len (a +:+ b) = PyStr.len a + PyStr.len b.
Proof.
  induction a as [|c a IH]; cbn [String.append].
  - unfold PyStr.len. simpl. lia.
  - rewrite !len_cons, IH. lia.
Qed.

Lemma replace_same (c : ascii) (s : string) :
  PyStr.replace c (String c EmptyString) s = s.
Proof.
  induction s as [|d s IH]; cbn [PyStr.replace]; [done|].
  destruct (Ascii.eqb d c) eqn:E.
  - apply Ascii.eqb_eq in E. subst d. cbn. by rewrite IH.
  - by rewrite IH.
Qed.

Lemma len_replace_char (c d : ascii) (s : string) :
  PyStr.len (PyStr.replace c (String d EmptyString) s) = PyStr.len s.
Proof.
  induction s as [|e s IH]; cbn [PyStr.replace]; [done|].
  destruct (Ascii.eqb e c); cbn [String.append]; rewrite !len_cons, IH; lia.
Qed.

Lemma len_replace_empty (c : ascii) (s : string) :
  PyStr.len (PyStr.replace c EmptyString s) <= PyStr.len s.
Proof.
  induction s as [|e s IH]; cbn [PyStr.replace]; [done|].
  destruct (Ascii.eqb e c); cbn [String.append]; rewrite !len_cons; lia.
Qed.

Lemma has_char_append (c : ascii) (a b : string) :
  PyStr.has_char c (a +:+ b) = PyStr.has_char c a || PyStr.has_char c b.
Proof.
  induction a as [|d a IH]; cbn [String.append PyStr.has_char]; [done|].
  rewrite IH. by rewrite orb_assoc.
Qed.

Lemma has_char_replace_empty (c : ascii) (s : string) :
  PyStr.has_char c (PyStr.replace c EmptyString s) = false.
Proof.
  induction s as [|d s IH]; cbn [PyStr.replace]; [done|].
  destruct (Ascii.eqb d c) eqn:E; cbn [String.append PyStr.has_char].
  - exact IH.
  - by rewrite E, IH.
Qed.

Lemma startswith_append (p s t : string) :
  PyStr.startswith p s = true -> PyStr.startswith p (s +:+ t) = true.
Proof.
  revert s. induction p as [|a p IH]; intros [|b s]; cbn; try done.
  intros [-> H]%andb_true_iff. by rewrite (IH _ H).
Qed.

Lemma endswith_self (p : string) : PyStr.endswith p p = true.
Proof. destruct p; cbn [PyStr.endswith]; by rewrite String.eqb_refl. Qed.

Lemma endswith_append_self (p s : string) :
  PyStr.endswith p (s +:+ p) = true.
Proof.
  induction s as [|c s IH]; cbn [String.append].
  - apply endswith_self.
  - cbn [PyStr.endswith]. rewrite IH. apply orb_true_r.
Qed.

Lemma split_not_nil (sep : ascii) (s : string) : PyStr.split sep s <> [].
Proof.
  induction s as [|c s IH]; cbn [PyStr.split]; [done|].
  destruct (Ascii.eqb c sep); [done|].
  by destruct (PyStr.split sep s).
Qed.

End PyStrFacts.

Example split_example : PyStr.split ";" "a;b;;c" = ["a"; "b"; ""; "c"].
Proof. reflexivity. Qed.

Example split_empty_example : PyStr.split ";" "" = [""].
Proof. reflexivity. Qed.

Example join_example : PyStr.join ";" ["a"; "b"; ""; "c"] = "a;b;;c".
Proof. reflexivity. Qed.

Example slices_example :
  PyStr.drop_first ";ab;" = "ab;" /\ PyStr.drop_last "ab;" = "ab"
  /\ PyStr.drop_last "" = "".
Proof. repeat split. Qed.

Example endswith_example :
  PyStr.endswith ";" "ab;" = true /\ PyStr.endswith ";" "" = false.
Proof. split; reflexivity. Qed.

Example replace_example : PyStr.replace " " "" "a b , c" = "ab,c".
Proof. reflexivity. Qed.

(* ===================================================================== *)
(** ** Address normalisation *)
(* ===================================================================== *)

Section Normalisation.

Lemma format_addresses_unfold (n : Node) :
  addresses (_format_addresses n) =
    let a := replaced (addresses n) in
    let a := if negb (PyStr.startswith ";" a) then ";" +:+ a else a in
    if negb (PyStr.endswith ";" a) then a +:+ ";" else a.
Proof. reflexivity. Qed.

Lemma replaced_no_space (s : string) : PyStr.has_char " " (replaced s) = false.
Proof. unfold replaced. rewrite replace_same. apply has_char_replace_empty. Qed.

Lemma replaced_len (s : string) : PyStr.len (replaced s) <= PyStr.len s.
Proof.
  unfold replaced. rewrite replace_same.
  etransitivity; [apply len_replace_empty|]. by rewrite len_replace_char.
Qed.

Lemma format_addresses_bounded (n : Node) :
  delimiter_bounded (addresses (_format_addresses n)) = true.
Proof.
  rewrite format_addresses_unfold. cbv zeta. unfold delimiter_bounded.
  set (a := replaced (addresses n)).
  destruct (PyStr.startswith ";" a) eqn:Hs; cbn [negb].
  - destruct (PyStr.endswith ";" a) eqn:He; cbn [negb].
    + by rewrite Hs, He.
    + by rewrite (startswith_append _ _ _ Hs), endswith_append_self.
  - destruct (PyStr.endswith ";" (";" +:+ a)) eqn:He; cbn [negb].
    + by rewrite He.
    + by rewrite endswith_append_self.
Qed.

Lemma format_addresses_len (n : Node) :
  PyStr.len (addresses (_format_addresses n)) <= PyStr.len (addresses n) + 2.
Proof.
  rewrite format_addresses_unfold. cbv zeta.
  pose proof (replaced_len (addresses n)) as Hl.
  set (a := replaced (addresses n)) in *.
  destruct (negb (PyStr.startswith ";" a));
    [destruct (negb (PyStr.endswith ";" (";" +:+ a)))
    |destruct (negb (PyStr.endswith ";" a))];
    rewrite ?len_append; change (PyStr.len ";") with 1; lia.
Qed.

Lemma format_addresses_no_space (n : Node) :
  PyStr.has_char " " (addresses (_format_addresses n)) = false.
Proof.
  rewrite format_addresses_unfold. cbv zeta.
  pose proof (replaced_no_space (addresses n)) as Hn.
  set (a := replaced (addresses n)) in *.
  destruct (negb (PyStr.startswith ";" a));
    [destruct (negb (PyStr.endswith ";" (";" +:+ a)))
    |destruct (negb (PyStr.endswith ";" a))];
    rewrite ?has_char_append; cbn; by rewrite Hn.
Qed.

Example format_example :
  addresses (_format_addresses (sample "aa:bb, 10.0.0.1 ;fe80::1"))
    = ";aa:bb;10.0.0.1;fe80::1;".
Proof. reflexivity. Qed.

(** Normalising a second time changes nothing on this input. *)
Example format_twice_example :
  addresses (_format_addresses (_format_addresses (sample "aa:bb, 10.0.0.1")))
    = addresses (_format_addresses (sample "aa:bb, 10.0.0.1")).
Proof. reflexivity. Qed.

End Normalisation.

(* ===================================================================== *)
(** ** Address truncation *)
(* ===================================================================== *)

Section Truncation.

Lemma pop_Some (l l' : list string) :
  pop l = Some l' -> l <> [] /\ l' = removelast l.
Proof. destruct l; [done|]. intros [= <-]. done. Qed.

Lemma pop_length (l l' : list string) :
  pop l = Some l' -> length l = S (length l').
Proof.
  intros [Hne ->]%pop_Some.
  pose proof (app_removelast_last EmptyString Hne) as E.
  apply (f_equal (@length string)) in E. rewrite length_app in E.
  cbn [length] in E. lia.
Qed.

Lemma pop_prefix (l l' : list string) : pop l = Some l' -> l' `prefix_of` l.
Proof.
  intros [Hne ->]%pop_Some.
  exists [List.last l EmptyString].
  exact (app_removelast_last EmptyString Hne).
Qed.

Lemma overflow_not_nil (l : list string) :
  (max_length <? PyStr.len (PyStr.join ";" l) + 2) = true -> l <> [].
Proof. intros H ->. discriminate H. Qed.

(** With more fuel than the list has elements the loop ends normally, on a
    prefix of the list that fits. *)
Lemma truncate_loop_total (fuel : nat) :
  forall l : list string,
    (length l < fuel)%nat ->
    exists l', truncate_loop fuel l = Some (Ok l')
               /\ l' `prefix_of` l
               /\ PyStr.len (PyStr.join ";" l') + 2 <= max_length.
Proof.
  induction fuel as [|fuel IH]; intros l Hl; [lia|].
  cbn [truncate_loop].
  destruct (max_length <? PyStr.len (PyStr.join ";" l) + 2) eqn:Hc.
  - destruct (pop l) as [l1|] eqn:Hp.
    + pose proof (pop_length _ _ Hp) as Hlen.
      destruct (IH l1) as (l' & Hrun & Hpre & Hfit); [lia|].
      exists l'. split; [done|]. split; [|done].
      etransitivity; [exact Hpre|]. by apply pop_prefix.
    + destruct l; [|done]. by apply overflow_not_nil in Hc.
  - exists l. split; [done|]. split; [done|]. apply Z.ltb_ge in Hc. lia.
Qed.

(** A run that ended is not changed by more fuel. *)
Lemma truncate_loop_more_fuel (fuel : nat) :
  forall (l : list string) (r : result (list string)) (extra : nat),
    truncate_loop fuel l = Some r ->
    truncate_loop (fuel + extra) l = Some r.
Proof.
  induction fuel as [|fuel IH]; intros l r extra; [done|].
  cbn [truncate_loop Nat.add].
  destruct (max_length <? PyStr.len (PyStr.join ";" l) + 2); [|done].
  destruct (pop l); [apply IH|done].
Qed.

(** What [truncate_addresses] does, in full. *)
Lemma truncate_addresses_spec (n : Node) :
  (PyStr.len (addresses n) <= max_length /\ truncate_addresses n = Some (Ok n))
  \/
  (max_length < PyStr.len (addresses n) /\
   exists l : list string,
     l `prefix_of` (address_list n).1
     /\ PyStr.len (PyStr.join ";" l) + 2 <= max_length
     /\ truncate_addresses n =
          Some (Ok (set_addresses (PyStr.join ";" l)
                      (set_address_list_cache (Some l) (address_list n).2)))).
Proof.
  unfold truncate_addresses.
  destruct (PyStr.len (addresses n) <=? max_length) eqn:Hc.
  - left. apply Z.leb_le in Hc. done.
  - right. apply Z.leb_gt in Hc. split; [done|].
    destruct (address_list n) as [l0 n1] eqn:Hal. cbn [fst snd].
    destruct (truncate_loop_total (S (length l0)) l0) as (l & Hrun & Hpre & Hfit);
      [lia|].
    exists l. rewrite Hrun. done.
Qed.

End Truncation.

(* ===================================================================== *)
(** ** The persistence layer *)
(* ===================================================================== *)

Section Persistence.




Lemma first_None (q : list NodeRow) : first q = None -> q = [].
Proof.
  destruct q as [|x q]; [done|].
  unfold first. cbn [foldr]. fold (first q).
  destruct (first q) as [m|]; [|done]. by destruct (row_pk x <=? row_pk m).
Qed.

End Persistence.

(* ===================================================================== *)
(** ** Identity lookup *)
(* ===================================================================== *)

Section Lookup.

















End Lookup.

(* ===================================================================== *)
(** ** The expiration sweep *)
(* ===================================================================== *)

Section Sweep.

Lemma filter_filter (f g : NodeRow -> bool) (l : list NodeRow) :
  List.filter f (List.filter g l) = List.filter (fun r => g r && f r) l.
Proof.
  induction l as [|x l IH]; [done|]. cbn [List.filter].
  destruct (g x); cbn [List.filter andb]; [destruct (f x)|]; by rewrite IH.
Qed.

Lemma filter_all (f : NodeRow -> bool) (l : list NodeRow) :
  (forall r, In r l -> f r = true) -> List.filter f l = l.
Proof.
  induction l as [|x l IH]; [done|]. intros H. cbn [List.filter].
  rewrite (H x) by (by left). f_equal. apply IH. intros r Hr. apply H. by right.
Qed.

Lemma delete_loop (es : list NodeRow) :
  forall db : DB,
    nodes (foldl (fun d node => delete_node node d) db es)
      = List.filter (survives es) (nodes db)
    /\ links (foldl (fun d node => delete_node node d) db es) = links db.
Proof.
  induction es as [|e es IH]; intros db; cbn [foldl].
  - split; [|done]. symmetry. by apply filter_all.
  - destruct (IH (delete_node e db)) as [Hn Hl]. rewrite Hn, Hl.
    split; [|done]. cbn [delete_node nodes]. rewrite filter_filter.
    apply filter_ext. intros r. reflexivity.
Qed.

Lemma pk_injective (rows : list NodeRow) (x y : NodeRow) :
  List.NoDup (map row_pk rows) -> In x rows -> In y rows ->
  row_pk x = row_pk y -> x = y.
Proof.
  induction rows as [|a rows IH]; [done|]. cbn [map].
  intros [Ha Hnd]%NoDup_cons_iff [->|Hx] [->|Hy] E; auto.
  - exfalso. apply Ha. rewrite E. by apply in_map.
  - exfalso. apply Ha. rewrite <- E. by apply in_map.
Qed.

Lemma survives_expired (f : NodeRow -> bool) (rows : list NodeRow) (r : NodeRow) :
  List.NoDup (map row_pk rows) -> In r rows ->
  survives (List.filter f rows) r = negb (f r).
Proof.
  intros Hnd Hr. unfold survives. destruct (f r) eqn:Hf; cbn [negb].
  - apply not_true_is_false. rewrite forallb_forall. intros H.
    specialize (H r). rewrite Z.eqb_refl in H.
    assert (In r (List.filter f rows)) as Hin by (apply filter_In; done).
    by specialize (H Hin).
  - apply forallb_forall. intros e [He Hfe]%filter_In.
    apply negb_true_iff, Z.eqb_neq. intros E.
    assert (r = e) as -> by (by eapply pk_injective).
    congruence.
Qed.

(** Both settings active: the sweep keeps, in order, the rows that the
    filter does not select, and touches no link. *)
Lemma sweep_cutoff (days now : Z) :
  -999999999 <= days <= 999999999 -> cutoff_in_range now days ->
  timedelta days = Ok (timedelta_days days)
  /\ datetime_sub now (timedelta_days days) = Ok (now - timedelta_days days).
Proof.
  intros Hd Hc. unfold timedelta, datetime_sub, cutoff_in_range in *. split.
  - destruct (-999999999 <=? days) eqn:E1; [|apply Z.leb_gt in E1; lia].
    destruct (days <=? 999999999) eqn:E2; [done|apply Z.leb_gt in E2; lia].
  - cbv zeta.
    destruct (0 <=? now - timedelta_days days) eqn:E1;
      [|apply Z.leb_gt in E1; lia].
    destruct (now - timedelta_days days <=? datetime_max) eqn:E2;
      [done|apply Z.leb_gt in E2; lia].
Qed.

Lemma sweep_active (NE LE : setting) (days now : Z) (db : DB) :
  in_False_None NE = false -> in_False_None LE = false ->
  py_int NE = Ok days ->
  -999999999 <= days <= 999999999 -> cutoff_in_range now days ->
  List.NoDup (map row_pk (nodes db)) ->
  exists (db' : DB) (log : list string),
    delete_expired_nodes NE LE now db = Ok (db', log)
    /\ links db' = links db
    /\ nodes db' =
         List.filter (fun r => negb (expired (now - timedelta_days days) db r))
                     (nodes db).
Proof.
  intros HNE HLE Hint Hdays Hcut Hnd. unfold delete_expired_nodes.
  destruct (sweep_cutoff days now Hdays Hcut) as [Htd Hsub].
  rewrite HNE, HLE, Hint, Htd, Hsub. cbn [negb andb].
  set (cut := now - timedelta_days days).
  destruct (List.filter (expired cut db) (nodes db)) as [|e es] eqn:Hes;
    cbn [length].
  - exists db, []. split; [done|]. split; [done|].
    symmetry. apply filter_all. intros r Hr.
    apply negb_true_iff, not_true_is_false. intros Hx.
    assert (In r (List.filter (expired cut db) (nodes db))) as Hin
      by (apply filter_In; done).
    by rewrite Hes in Hin.
  - eexists _, _. split; [reflexivity|].
    destruct (delete_loop (e :: es) db) as [Hn Hl]. rewrite Hn, Hl.
    split; [done|]. rewrite <- Hes.
    apply filter_ext_in. intros r Hr. by apply survives_expired.
Qed.

(** One setting in [[False, None]]: nothing happens. *)
Lemma sweep_disabled (NE LE : setting) (now : Z) (db : DB) :
  in_False_None NE = true \/ in_False_None LE = true ->
  delete_expired_nodes NE LE now db = Ok (db, []).
Proof.
  intros [H|H]; unfold delete_expired_nodes; rewrite H; cbn [negb andb];
    by rewrite ?andb_false_r.
Qed.

(** A day count of 0 equals [False] in Python, so it switches the sweep
    off like [False] does. *)
Lemma sweep_zero_days (LE : setting) (now : Z) (db : DB) :
  delete_expired_nodes (SInt 0) LE now db = Ok (db, []).
Proof. apply sweep_disabled. by left. Qed.

(** The sweep scenario: of the three nodes modified 40 days ago only the
    one without links goes; the node modified 10 days ago stays. *)
Example sweep_example :
  delete_expired_nodes (SInt 30) (SInt 30) sweep_now sweep_db
    = Ok (mkDB [mkRow 2 1 ";b;" (timedelta_days 60);
                mkRow 3 1 ";c;" (timedelta_days 60);
                mkRow 4 1 ";d;" (timedelta_days 90)] [mkLink 2 3],
          ["Deleting 1 expired nodes"]).
Proof. vm_compute. reflexivity. Qed.

Example sweep_off_example :
  delete_expired_nodes (SBool false) (SInt 30) sweep_now sweep_db
    = Ok (sweep_db, []).
Proof. reflexivity. Qed.

End Sweep.

(* ===================================================================== *)
(** ** Serialisation *)
(* ===================================================================== *)

Section Serialisation.

Lemma dict_get_set_eq (k : string) (v : value) (d : pydict) :
  dict_get k (dict_set k v d) = Some v.
Proof.
  induction d as [|[k' v'] d IH]; cbn [dict_set dict_get].
  - by rewrite String.eqb_refl.
  - destruct (String.eqb k' k) eqn:E; cbn [dict_get].
    + by rewrite String.eqb_refl.
    + by rewrite E.
Qed.

Lemma dict_get_set_ne (k k' : string) (v : value) (d : pydict) :
  k <> k' -> dict_get k (dict_set k' v d) = dict_get k d.
Proof.
  intros Hne. induction d as [|[k0 v0] d IH]; cbn [dict_set dict_get].
  - destruct (String.eqb k' k) eqn:E; [|done].
    apply String.eqb_eq in E. congruence.
  - destruct (String.eqb k0 k') eqn:E; cbn [dict_get].
    + apply String.eqb_eq in E. subst k0.
      destruct (String.eqb k' k) eqn:E'; [|done].
      apply String.eqb_eq in E'. congruence.
    + by rewrite IH.
Qed.

Lemma deref_setitem (r : loc) (k : string) (v : value) (h : Heap) :
  deref (heap_setitem r k v h) r = dict_set k v (deref h r).
Proof. unfold deref at 1, heap_setitem. by rewrite lookup_insert_eq. Qed.

Lemma same_fields_refl (n : Node) : same_fields n n.
Proof. by repeat split. Qed.

Lemma same_fields_trans (a b c : Node) :
  same_fields a b -> same_fields b c -> same_fields a c.
Proof. unfold same_fields. intuition congruence. Qed.

Lemma address_list_fields (n : Node) : same_fields n (address_list n).2.
Proof.
  unfold address_list. destruct (address_list_cache n); by repeat split.
Qed.

Lemma netjson_id_fields (n n' : Node) (i : option string) :
  netjson_id n = Ok (i, n') -> same_fields n n'.
Proof.
  unfold netjson_id. destruct (PyStr.truthy (addresses n)).
  - pose proof (address_list_fields n) as H.
    destruct (address_list n) as [[|x l] n1]; [done|]. by intros [= _ <-].
  - intros [= _ <-]. apply same_fields_refl.
Qed.

Lemma local_addresses_fields (n : Node) : same_fields n (local_addresses n).2.
Proof.
  unfold local_addresses.
  destruct (local_addresses_cache n); [apply same_fields_refl|].
  unfold local_addresses_body. destruct (PyStr.truthy (addresses n)).
  - pose proof (address_list_fields n) as H.
    destruct (address_list n) as [l n1]. cbn [snd] in H.
    destruct (1 <? Z.of_nat (length l)); cbn [snd];
      (eapply same_fields_trans; [exact H|by repeat split]).
  - by repeat split.
Qed.

Lemma getattr_fields (attr : string) (n : Node) : same_fields n (getattr attr n).2.
Proof.
  unfold getattr. destruct (String.eqb attr "label"); [apply same_fields_refl|].
  destruct (String.eqb attr "local_addresses"); [|apply same_fields_refl].
  pose proof (local_addresses_fields n) as H.
  by destruct (local_addresses n) as [v n1].
Qed.

(** After the attribute loop the mapping holds, under ['properties'], the
    very object the node holds. *)
Lemma json_attrs_properties (h : Heap) (netjson netjson' : pydict) (n n' : Node) :
  json_attrs ["label"; "local_addresses"; "properties"] h netjson n
    = (netjson', n') ->
  same_fields n n'
  /\ dict_get "properties" netjson' =
       Some (match properties n with Some r => VRef r | None => VNone end).
Proof.
  cbn [json_attrs].
  pose proof (getattr_fields "label" n) as H1.
  destruct (getattr "label" n) as [v1 n1]. cbn [snd] in H1.
  pose proof (getattr_fields "local_addresses" n1) as H2.
  destruct (getattr "local_addresses" n1) as [v2 n2]. cbn [snd] in H2.
  pose proof (getattr_fields "properties" n2) as H3.
  assert ((getattr "properties" n2).1 =
          match properties n with Some r => VRef r | None => VNone end) as Hv.
  { unfold getattr. cbn [String.eqb Ascii.eqb Bool.eqb fst].
    destruct H1 as (_ & _ & _ & _ & E1 & _), H2 as (_ & _ & _ & _ & E2 & _).
    by rewrite E2, E1. }
  destruct (getattr "properties" n2) as [v3 n3]. cbn [snd fst] in H3, Hv.
  rewrite String.eqb_refl, orb_true_r. intros [= <- <-].
  split; [eauto using same_fields_trans|].
  by rewrite dict_get_set_eq, Hv.
Qed.

(** Whenever [json] returns, the [dict] the node holds as [properties]
    carries the two timestamps afterwards. *)
Lemma json_writes_properties (dumps : Heap -> pydict -> result string)
    (dict : bool) (n n' : Node) (h h' : Heap) (o : json_output) (r : loc) :
  properties n = Some r ->
  json dumps dict n h = Ok (o, n', h') ->
  properties n' = Some r
  /\ dict_get "created" (deref h' r) = Some (VTime (created n))
  /\ dict_get "modified" (deref h' r) = Some (VTime (modified n)).
Proof.
  intros Hp. unfold json.
  destruct (netjson_id n) as [[i n1]|] eqn:Hid; [|done].
  apply netjson_id_fields in Hid.
  destruct (json_attrs _ h _ n1) as [netjson n2] eqn:Hattrs.
  apply json_attrs_properties in Hattrs as [Hf Hget].
  pose proof (same_fields_trans _ _ _ Hid Hf) as (_ & _ & _ & _ & Ep & Ec & Em).
  destruct Hid as (_ & _ & _ & _ & Ep1 & _). rewrite Ep1, Hp in Hget.
  unfold set_property. rewrite Hget.
  assert (forall o0 : json_output,
            Ok (o0, n2,
                heap_setitem r "modified" (VTime (modified n2))
                  (heap_setitem r "created" (VTime (created n2)) h))
            = Ok (o, n', h') ->
            properties n' = Some r
            /\ dict_get "created" (deref h' r) = Some (VTime (created n))
            /\ dict_get "modified" (deref h' r) = Some (VTime (modified n)))
    as Hdone.
  { intros o0 [= _ <- <-]. split; [congruence|].
    rewrite !deref_setitem, Ec, Em. split.
    - rewrite dict_get_set_ne by done. apply dict_get_set_eq.
    - apply dict_get_set_eq. }
  destruct dict; [apply Hdone|].
  destruct (dumps _ _) as [text|e]; [apply Hdone|done].
Qed.

End Serialisation.

(* ===================================================================== *)
(** ** The properties *)
(* ===================================================================== *)

Section Claims.

Lemma expired_iff (cut : Z) (db : DB) (r : NodeRow) :
  expired cut db r = true <-> row_modified r < cut /\ unlinked db r.
Proof.
  unfold expired, source_link_set_isnull, target_link_set_isnull, unlinked.
  rewrite !andb_true_iff, Z.ltb_lt, !forallb_forall. split.
  - intros [[Hm Hs] Ht]. split; [done|]. intros l Hl.
    specialize (Hs l Hl). specialize (Ht l Hl).
    apply negb_true_iff, Z.eqb_neq in Hs, Ht. done.
  - intros [Hm Hu]. repeat split; [done|..]; intros l Hl;
      apply negb_true_iff, Z.eqb_neq; by apply Hu.
Qed.

(** C1.  With both settings active (day counts that a [timedelta] holds,
    and a cutoff that is a [datetime]), [delete_expired_nodes] removes from
    the node table exactly the rows whose [modified] is strictly before
    [now - NODE_EXPIRATION days] and that no link starts or ends at; every
    other row stays and no link is touched.  When [NODE_EXPIRATION] or
    [LINK_EXPIRATION] is [False] or [None] the database is returned as it
    was and nothing is logged. *)
Theorem sweep_deletes_exactly_expired (NE LE : setting) (now : Z) (db : DB) :
  ((NE = SBool false \/ NE = SNone \/ LE = SBool false \/ LE = SNone) ->
   delete_expired_nodes NE LE now db = Ok (db, []))
  /\
  (forall d d' : Z,
     NE = SInt d -> LE = SInt d' -> 0 < d -> 0 < d' ->
     d <= 999999999 ->
     0 <= now - timedelta_days d <= datetime_max ->
     List.NoDup (map row_pk (nodes db)) ->
     exists (db' : DB) (log : list string),
       delete_expired_nodes NE LE now db = Ok (db', log)
       /\ links db' = links db
       /\ forall r : NodeRow,
            In r (nodes db') <->
            In r (nodes db)
            /\ ~ (row_modified r < now - timedelta_days d /\ unlinked db r)).
Proof.
  split.
  - intros H. apply sweep_disabled.
    destruct H as [-> | [-> | [-> | ->]]]; auto.
  - intros d d' -> -> Hd Hd' Hmax Hcut Hnd.
    destruct (sweep_active (SInt d) (SInt d') d now db) as (db' & log & Hrun & Hl & Hn);
      [cbn; lia|cbn; lia|done|lia|done|done|].
    exists db', log. split; [done|]. split; [done|]. intros r.
    rewrite Hn, filter_In, negb_true_iff, <- not_true_iff_false, expired_iff.
    done.
Qed.

Lemma sweep_scenario :
  delete_expired_nodes (SBool false) (SInt 30) sweep_now sweep_db
    = Ok (sweep_db, [])
  /\ exists (db' : DB) (log : list string),
       delete_expired_nodes (SInt 30) (SInt 30) sweep_now sweep_db = Ok (db', log)
       /\ links db' = links sweep_db
       /\ forall r : NodeRow,
            In r (nodes db') <->
            In r (nodes sweep_db)
            /\ ~ (row_modified r < sweep_now - timedelta_days 30
                  /\ unlinked sweep_db r).
Proof.
  split.
  - apply (proj1 (sweep_deletes_exactly_expired (SBool false) (SInt 30)
                    sweep_now sweep_db)).
    left. reflexivity.
  - apply (proj2 (sweep_deletes_exactly_expired (SInt 30) (SInt 30)
                    sweep_now sweep_db) 30 30);
      [reflexivity|reflexivity|reflexivity|reflexivity|discriminate
      |split; discriminate|].
    repeat (apply List.NoDup_cons; [cbn; intuition discriminate|]).
    apply List.NoDup_nil.
Defined.




(** Normalising the empty string gives one delimiter, not two: C3 as
    stated fails. *)
Lemma format_empty_is_not_two_delimiters :
  addresses (_format_addresses (sample "")) = ";"
  /\ String.eqb (addresses (_format_addresses (sample ""))) ";;" = false.
Proof. split; reflexivity. Qed.

(** C3, amended.  Normalising the empty raw address string produces
    exactly [";"], a single delimiter.  [netjson_id] is [None] while the
    addresses are the empty string; on the normalised node it is the empty
    string. *)
Theorem format_empty_addresses (n : Node) :
  addresses n = "" ->
  addresses (_format_addresses n) = ";"
  /\ netjson_id n = Ok (None, n)
  /\ (address_list_cache n = None ->
      exists n' : Node, netjson_id (_format_addresses n) = Ok (Some "", n')).
Proof.
  intros Ha. split; [|split].
  - rewrite format_addresses_unfold, Ha. reflexivity.
  - unfold netjson_id. by rewrite Ha.
  - intros Hc. unfold netjson_id, address_list, address_list_body.
    rewrite format_addresses_unfold, Ha. cbn [address_list_cache _format_addresses set_addresses].
    rewrite Hc. cbn. eauto.
Qed.

Lemma format_empty_scenario :
  addresses (sample "") = ""
  /\ addresses (_format_addresses (sample "")) = ";"
  /\ netjson_id (sample "") = Ok (None, sample "")
  /\ (address_list_cache (sample "") = None ->
      exists n' : Node,
        netjson_id (_format_addresses (sample "")) = Ok (Some "", n')).
Proof.
  split; [reflexivity|].
  apply (format_empty_addresses (sample "")). reflexivity.
Defined.

(** After [truncate_addresses] has rewritten 601 characters the field has
    neither a leading nor a trailing delimiter: C4 as stated fails. *)
Lemma truncate_leaves_no_delimiters :
  exists n1 : Node,
    truncate_addresses (sample long_addresses) = Some (Ok n1)
    /\ PyStr.startswith ";" (addresses n1) = false
    /\ PyStr.endswith ";" (addresses n1) = false
    /\ delimiter_bounded (addresses n1) = false.
Proof.
  eexists. split; [vm_compute; reflexivity|]. repeat split; vm_compute; reflexivity.
Qed.

(** C4, amended.  [_format_addresses] always leaves a string that starts
    and ends with the delimiter.  [truncate_addresses] either leaves the
    field alone (it fits) or stores the retained addresses joined with the
    delimiter, without adding bounding delimiters; the next
    [_format_addresses] puts the string back into the bounded form. *)
Theorem rewrites_and_delimiters (n : Node) :
  delimiter_bounded (addresses (_format_addresses n)) = true
  /\ exists n1 : Node,
       truncate_addresses n = Some (Ok n1)
       /\ ((PyStr.len (addresses n) <= max_length /\ n1 = n)
           \/ (max_length < PyStr.len (addresses n)
               /\ exists l : list string,
                    l `prefix_of` (address_list n).1
                    /\ addresses n1 = PyStr.join ";" l))
       /\ delimiter_bounded (addresses (_format_addresses n1)) = true.
Proof.
  split; [apply format_addresses_bounded|].
  destruct (truncate_addresses_spec n) as [[Hshort Hrun]|(Hlong & l & Hpre & Hfit & Hrun)].
  - exists n. split; [done|]. split; [by left|apply format_addresses_bounded].
  - eexists. split; [exact Hrun|]. split; [|apply format_addresses_bounded].
    right. split; [done|]. by exists l.
Qed.



Lemma has_char_replace_other (c old : ascii) (new s : string) :
  Ascii.eqb c old = false -> PyStr.has_char c new = false ->
  PyStr.has_char c (PyStr.replace old new s) = PyStr.has_char c s.
Proof.
  intros Hc Hnew. induction s as [|d s IH]; cbn [PyStr.replace]; [done|].
  destruct (Ascii.eqb d old) eqn:E; cbn [PyStr.has_char].
  - rewrite has_char_append, Hnew, IH. cbn [orb].
    apply Ascii.eqb_eq in E. subst d. by rewrite Ascii.eqb_sym, Hc.
  - by rewrite IH.
Qed.

(** Any character other than the space, the comma and the delimiter is in
    the normalised string if and only if it is in the raw one. *)
Lemma format_addresses_keeps (c : ascii) (n : Node) :
  Ascii.eqb c " " = false -> Ascii.eqb c "," = false ->
  Ascii.eqb c ";" = false ->
  PyStr.has_char c (addresses (_format_addresses n))
    = PyStr.has_char c (addresses n).
Proof.
  intros Hsp Hco Hse. rewrite format_addresses_unfold. cbv zeta.
  assert (PyStr.has_char c (replaced (addresses n))
          = PyStr.has_char c (addresses n)) as Hr.
  { unfold replaced. rewrite replace_same.
    rewrite has_char_replace_other by done.
    apply has_char_replace_other; [done|].
    cbn [PyStr.has_char]. rewrite Ascii.eqb_sym, Hse. done. }
  assert (PyStr.has_char c ";" = false) as Hd.
  { cbn [PyStr.has_char]. rewrite Ascii.eqb_sym, Hse. done. }
  set (a := replaced (addresses n)) in *.
  destruct (negb (PyStr.startswith ";" a));
    [destruct (negb (PyStr.endswith ";" (";" +:+ a)))
    |destruct (negb (PyStr.endswith ";" a))];
    rewrite ?has_char_append, ?Hd, ?Hr, ?orb_false_r; done.
Qed.

(** A tab of the raw input is still there after normalisation: C6 as
    stated fails. *)
Lemma format_keeps_tab :
  addresses (_format_addresses (sample tabbed_addresses))
    = ";" +:+ tabbed_addresses +:+ ";"
  /\ has_whitespace (addresses (_format_addresses (sample tabbed_addresses)))
     = true.
Proof. split; reflexivity. Qed.

(** C6, amended.  For every raw address input, [_format_addresses] removes
    every space character, so the normalised string contains no space; the
    other whitespace characters (tab, newline, ...) are not removed: each of
    them is in the result exactly when it is in the input. *)
Theorem format_strips_spaces_only (n : Node) :
  PyStr.has_char " " (addresses (_format_addresses n)) = false
  /\ forall c : ascii,
       is_whitespace c = true -> c <> " "%char ->
       PyStr.has_char c (addresses (_format_addresses n))
         = PyStr.has_char c (addresses n).
Proof.
  split; [apply format_addresses_no_space|].
  intros c Hw Hc. apply format_addresses_keeps.
  - by apply Ascii.eqb_neq.
  - apply Ascii.eqb_neq. intros ->. discriminate Hw.
  - apply Ascii.eqb_neq. intros ->. discriminate Hw.
Qed.

(** C7.  [truncate_addresses] ends normally on every node: the loop never
    runs out of iterations and never pops from an empty list.  Each
    iteration makes the list one element shorter; with any number of
    iterations above the length of the list the loop stops on a prefix
    that fits; and the empty list always fits, so it is the floor. *)
Theorem truncate_addresses_terminates (n : Node) :
  (exists n1 : Node,
     truncate_addresses n = Some (Ok n1)
     /\ PyStr.len (addresses n1) <= max_length)
  /\ (forall l l' : list string,
        pop l = Some l' -> length l = S (length l'))
  /\ (forall (l : list string) (fuel : nat),
        (length l < fuel)%nat ->
        exists l' : list string,
          truncate_loop fuel l = Some (Ok l')
          /\ l' `prefix_of` l
          /\ PyStr.len (PyStr.join ";" l') + 2 <= max_length)
  /\ (forall fuel : nat, truncate_loop (S fuel) [] = Some (Ok [])).
Proof.
  split; [|split; [|split]].
  - destruct (truncate_addresses_spec n) as [[Hfit Hrun]|(_ & l & _ & Hfit & Hrun)].
    + by exists n.
    + eexists. split; [exact Hrun|]. cbn [addresses set_addresses]. lia.
  - apply pop_length.
  - intros l fuel Hl. by apply truncate_loop_total.
  - intros fuel. reflexivity.
Qed.

(** One address of 600 characters: the loop pops it and stops on the empty
    list; the field becomes the empty string. *)
Example truncate_one_long_address :
  exists n1 : Node,
    truncate_addresses (sample one_long_address) = Some (Ok n1)
    /\ addresses n1 = "" /\ address_list_cache n1 = Some [].
Proof. eexists. split; [vm_compute; reflexivity|]. split; reflexivity. Qed.

Lemma address_list_body_not_nil (n : Node) : address_list_body n <> [].
Proof. unfold address_list_body. apply split_not_nil. Qed.

(** For the addresses [";;"] the list is one empty string, and
    [netjson_id] is defined and empty: C8 as stated fails. *)
Lemma address_list_of_delimiters :
  (address_list (sample ";;")).1 = [""]
  /\ exists n' : Node, netjson_id (sample ";;") = Ok (Some "", n').
Proof. split; [reflexivity|]. eexists. reflexivity. Qed.

(** C8, amended.  For a node whose addresses string is empty or holds
    only bounding delimiters, [address_list] yields the sequence with one
    empty string, not the empty sequence; [netjson_id] is [None] for the
    empty string, and for [";"] and [";;"] it is defined and is the empty
    string. *)
Theorem address_list_without_address (n : Node) :
  address_list_cache n = None ->
  addresses n = "" \/ addresses n = ";" \/ addresses n = ";;" ->
  (address_list n).1 = [""]
  /\ (addresses n = "" -> netjson_id n = Ok (None, n))
  /\ (addresses n <> "" ->
      exists n' : Node, netjson_id n = Ok (Some "", n')).
Proof.
  intros Hc Ha. unfold netjson_id, address_list, address_list_body.
  rewrite Hc.
  destruct Ha as [-> | [-> | ->]]; cbn; (split; [done|]); split;
    try done; eauto.
Qed.

Lemma address_list_without_address_scenario :
  address_list_cache (sample ";;") = None
  /\ (address_list (sample ";;")).1 = [""]
  /\ (addresses (sample ";;") = "" ->
      netjson_id (sample ";;") = Ok (None, sample ";;"))
  /\ (addresses (sample ";;") <> "" ->
      exists n' : Node, netjson_id (sample ";;") = Ok (Some "", n')).
Proof.
  split; [reflexivity|].
  apply (address_list_without_address (sample ";;")); [reflexivity|].
  right. right. reflexivity.
Defined.

(** C9, on the code.  Serialising the node of the scenario, whose
    [properties] object is empty, returns the mapping with [id] and
    [properties], and leaves the node's own [properties] object with the
    keys [created] and [modified]: the mapping holds the object by
    reference, and the two item assignments go through it. *)
Theorem json_mutates_stored_properties
    (dumps : Heap -> pydict -> result string) :
  deref serial_heap 0%nat = []
  /\ exists (n' : Node) (h' : Heap),
       json dumps true serial_node serial_heap
         = Ok (AsDict [("id", VStr "aa:bb:cc:dd:ee:ff"); ("properties", VRef 0%nat)],
               n', h')
       /\ properties n' = Some 0%nat
       /\ deref h' 0%nat = [("created", VTime 100); ("modified", VTime 200)].
Proof.
  split; [reflexivity|].
  eexists _, _. split; [vm_compute; reflexivity|]. split; reflexivity.
Qed.




Example lookup_finds_exact_address (rule : case_rule) :
  get_from_address rule "10.0.0.1" 1 lookup_db
    = Some (mkRow 2 1 ";10.0.0.1;10.0.0.2;" 0)
  /\ count_address rule "10.0.0.1" 1 lookup_db = 1
  /\ get_from_address rule "10.0.0.10" 1 lookup_db
     = Some (mkRow 1 1 ";10.0.0.10;" 0).
Proof. destruct rule; repeat split. Qed.

End Claims.

(* ===================================================================== *)
(** ** Further properties: normalisation and the address list *)
(* ===================================================================== *)

Section NormalisationLaws.

Lemma replace_absent (old : ascii) (new s : string) :
  PyStr.has_char old s = false -> PyStr.replace old new s = s.
Proof.
  induction s as [|c s IH]; cbn [PyStr.has_char PyStr.replace]; [done|].
  intros [Hc Hs]%orb_false_iff. rewrite Hc. by rewrite IH.
Qed.

Lemma has_char_replace_gone (old : ascii) (new s : string) :
  PyStr.has_char old new = false ->
  PyStr.has_char old (PyStr.replace old new s) = false.
Proof.
  intros Hnew. induction s as [|c s IH]; cbn [PyStr.replace]; [done|].
  destruct (Ascii.eqb c old) eqn:E; cbn [PyStr.has_char].
  - by rewrite has_char_append, Hnew, IH.
  - by rewrite E, IH.
Qed.

Lemma replaced_no_comma (s : string) : PyStr.has_char "," (replaced s) = false.
Proof.
  unfold replaced. rewrite replace_same.
  rewrite has_char_replace_other by done.
  by apply has_char_replace_gone.
Qed.

Lemma format_addresses_no_comma (n : Node) :
  PyStr.has_char "," (addresses (_format_addresses n)) = false.
Proof.
  rewrite format_addresses_unfold. cbv zeta.
  pose proof (replaced_no_comma (addresses n)) as Hn.
  set (a := replaced (addresses n)) in *.
  destruct (negb (PyStr.startswith ";" a));
    [destruct (negb (PyStr.endswith ";" (";" +:+ a)))
    |destruct (negb (PyStr.endswith ";" a))];
    rewrite ?has_char_append; cbn; by rewrite Hn.
Qed.

(** A string without comma and space that starts and ends with the
    delimiter is left alone. *)
Lemma format_addresses_fixpoint (n : Node) :
  PyStr.has_char "," (addresses n) = false ->
  PyStr.has_char " " (addresses n) = false ->
  delimiter_bounded (addresses n) = true ->
  addresses (_format_addresses n) = addresses n.
Proof.
  intros Hco Hsp [Hs He]%andb_true_iff.
  rewrite format_addresses_unfold. cbv zeta. unfold replaced.
  rewrite replace_same, (replace_absent "," _ _ Hco), (replace_absent " " _ _ Hsp).
  rewrite Hs. cbn [negb]. by rewrite He.
Qed.

(** X1.  Normalisation is idempotent: a second [_format_addresses] changes
    nothing, whatever the raw input was. *)
Theorem format_addresses_idempotent (n : Node) :
  _format_addresses (_format_addresses n) = _format_addresses n.
Proof.
  assert (addresses (_format_addresses (_format_addresses n))
          = addresses (_format_addresses n)) as E.
  { apply format_addresses_fixpoint.
    - apply format_addresses_no_comma.
    - apply format_addresses_no_space.
    - apply format_addresses_bounded. }
  change (_format_addresses (_format_addresses n))
    with (set_addresses (addresses (_format_addresses (_format_addresses n))) n).
  rewrite E. reflexivity.
Qed.

End NormalisationLaws.

Section AddressList.

Lemma join_cons (sep x y : string) (r : list string) :
  PyStr.join sep (x :: y :: r) = x +:+ sep +:+ PyStr.join sep (y :: r).
Proof. reflexivity. Qed.

Lemma join_split (sep : ascii) (s : string) :
  PyStr.join (String sep EmptyString) (PyStr.split sep s) = s.
Proof.
  induction s as [|c s IH]; cbn [PyStr.split]; [done|].
  pose proof (split_not_nil sep s) as Hne.
  destruct (Ascii.eqb c sep) eqn:E.
  - apply Ascii.eqb_eq in E. subst c.
    destruct (PyStr.split sep s) as [|h r]; [done|].
    rewrite <- IH, join_cons. reflexivity.
  - destruct (PyStr.split sep s) as [|h r]; [done|].
    destruct r as [|y r].
    + cbn [PyStr.join] in *. by rewrite IH.
    + rewrite <- IH. rewrite !join_cons. reflexivity.
Qed.

Lemma split_no_sep (sep : ascii) (x : string) :
  PyStr.has_char sep x = false -> PyStr.split sep x = [x].
Proof.
  induction x as [|c x IH]; cbn [PyStr.has_char PyStr.split]; [done|].
  intros [Hc Hx]%orb_false_iff. by rewrite Hc, IH.
Qed.

Lemma split_append_sep (sep : ascii) (x t : string) :
  PyStr.has_char sep x = false ->
  PyStr.split sep (x +:+ String sep t) = x :: PyStr.split sep t.
Proof.
  induction x as [|c x IH]; cbn [PyStr.has_char String.append PyStr.split].
  - intros _. by rewrite Ascii.eqb_refl.
  - intros [Hc Hx]%orb_false_iff. by rewrite Hc, IH.
Qed.

Lemma split_join (sep : ascii) (l : list string) :
  l <> [] ->
  forallb (fun x => negb (PyStr.has_char sep x)) l = true ->
  PyStr.split sep (PyStr.join (String sep EmptyString) l) = l.
Proof.
  induction l as [|x l IH]; [done|]. intros _.
  cbn [forallb]. intros [Hx Hl]%andb_true_iff. apply negb_true_iff in Hx.
  destruct l as [|y l].
  - cbn [PyStr.join]. by apply split_no_sep.
  - rewrite join_cons. cbn [String.append].
    rewrite split_append_sep by done. f_equal. by apply IH.
Qed.

Lemma drop_last_append (s : string) (c : ascii) :
  PyStr.drop_last (s +:+ String c EmptyString) = s.
Proof.
  induction s as [|d s IH]; [done|].
  cbn [String.append PyStr.drop_last]. rewrite IH.
  by destruct s.
Qed.

Lemma startswith_char (c : ascii) (s : string) :
  PyStr.startswith (String c EmptyString) s = true ->
  exists t : string, s = String c t.
Proof.
  destruct s as [|d s]; cbn [PyStr.startswith]; [done|].
  rewrite andb_true_r. intros ->%Ascii.eqb_eq. by exists s.
Qed.

Lemma endswith_char (c : ascii) (s : string) :
  PyStr.endswith (String c EmptyString) s = true ->
  exists b : string, s = b +:+ String c EmptyString.
Proof.
  induction s as [|d s IH]; cbn [PyStr.endswith]; [done|].
  intros [H|H]%orb_true_iff.
  - apply String.eqb_eq in H. exists EmptyString. done.
  - destruct (IH H) as [b ->]. by exists (String d b).
Qed.

(** A string that is not the lone delimiter and starts and ends with the
    delimiter has a body between the two. *)
Lemma bounded_body (s : string) :
  delimiter_bounded s = true -> s <> ";" ->
  exists b : string, s = ";" +:+ b +:+ ";".
Proof.
  intros [Hs He]%andb_true_iff Hne.
  destruct (startswith_char _ _ Hs) as [t ->].
  cbn [PyStr.endswith] in He. apply orb_true_iff in He as [He|He].
  - apply String.eqb_eq in He. done.
  - destruct (endswith_char _ _ He) as [b ->]. by exists b.
Qed.

Lemma address_list_body_bounded (n : Node) (b : string) :
  PyStr.has_char " " b = false ->
  addresses n = ";" +:+ b +:+ ";" ->
  address_list_body n = PyStr.split ";" b.
Proof.
  intros Hsp Ha. unfold address_list_body. rewrite Ha.
  rewrite replace_absent by (cbn; by rewrite has_char_append, Hsp).
  cbn [String.append PyStr.startswith Ascii.eqb Bool.eqb andb PyStr.drop_first].
  by rewrite drop_last_append.
Qed.

(** X2.  The stored string and the address list carry the same
    information: for a string in the stored form (delimiter at both ends,
    no space, not the lone delimiter) joining the address list with the
    delimiter and bounding it gives the string back. *)
Theorem address_list_join_round_trip (n : Node) :
  delimiter_bounded (addresses n) = true ->
  PyStr.has_char " " (addresses n) = false ->
  addresses n <> ";" ->
  ";" +:+ PyStr.join ";" (address_list_body n) +:+ ";" = addresses n.
Proof.
  intros Hb Hsp Hne.
  destruct (bounded_body _ Hb Hne) as [b Ha].
  assert (PyStr.has_char " " b = false) as Hspb.
  { rewrite Ha in Hsp. cbn [String.append PyStr.has_char] in Hsp.
    rewrite has_char_append in Hsp.
    apply orb_false_iff in Hsp as [_ Hsp]. by apply orb_false_iff in Hsp as [? _]. }
  rewrite (address_list_body_bounded n b Hspb Ha), Ha.
  by rewrite (join_split ";" b).
Qed.

Lemma address_list_join_round_trip_witness :
  delimiter_bounded (addresses (sample ";aa:bb;10.0.0.1;")) = true
  /\ ";" +:+ PyStr.join ";" (address_list_body (sample ";aa:bb;10.0.0.1;")) +:+ ";"
     = addresses (sample ";aa:bb;10.0.0.1;").
Proof.
  split; [reflexivity|].
  apply (address_list_join_round_trip (sample ";aa:bb;10.0.0.1;"));
    [reflexivity|reflexivity|discriminate].
Defined.

Lemma address_list_body_of_joined (n : Node) (l : list string) :
  l <> [] ->
  forallb (fun a => negb (PyStr.has_char ";" a)) l = true ->
  forallb (fun a => negb (PyStr.has_char " " a)) l = true ->
  addresses n = ";" +:+ PyStr.join ";" l +:+ ";" ->
  address_list_body n = l.
Proof.
  intros Hne Hse Hsp Ha.
  rewrite (address_list_body_bounded n (PyStr.join ";" l)); [|..|done].
  - by apply split_join.
  - clear Hse Ha Hne. induction l as [|x l IH]; [done|].
    cbn [forallb] in Hsp. apply andb_true_iff in Hsp as [Hx Hl].
    apply negb_true_iff in Hx. destruct l as [|y l]; [done|].
    rewrite join_cons, !has_char_append, Hx, (IH Hl). done.
Qed.

(** X3.  The other way round: when the stored string is built from a
    non-empty list of addresses without delimiter and without space, the
    address list read back is that list. *)
Theorem address_list_of_joined (n : Node) (l : list string) :
  l <> [] ->
  forallb (fun a => negb (PyStr.has_char ";" a)) l = true ->
  forallb (fun a => negb (PyStr.has_char " " a)) l = true ->
  address_list_cache n = None ->
  addresses n = ";" +:+ PyStr.join ";" l +:+ ";" ->
  (address_list n).1 = l.
Proof.
  intros Hne Hse Hsp Hc Ha. unfold address_list. rewrite Hc. cbn [fst].
  by apply address_list_body_of_joined.
Qed.

Lemma address_list_of_joined_witness :
  ["aa:bb"; "10.0.0.1"] <> []
  /\ (address_list (sample ";aa:bb;10.0.0.1;")).1 = ["aa:bb"; "10.0.0.1"].
Proof.
  split; [discriminate|].
  apply (address_list_of_joined (sample ";aa:bb;10.0.0.1;") ["aa:bb"; "10.0.0.1"]);
    [discriminate|reflexivity|reflexivity|reflexivity|reflexivity].
Defined.

End AddressList.

Section RawInput.

Lemma append_assoc (a b c : string) : a +:+ b +:+ c = (a +:+ b) +:+ c.
Proof. induction a as [|d a IH]; cbn [String.append]; [done|]. by rewrite IH. Qed.

Lemma replace_append (old : ascii) (new a b : string) :
  PyStr.replace old new (a +:+ b)
    = PyStr.replace old new a +:+ PyStr.replace old new b.
Proof.
  induction a as [|c a IH]; [done|].
  change (String c a +:+ b) with (String c (a +:+ b)). cbn [PyStr.replace].
  destruct (Ascii.eqb c old); rewrite IH.
  - by rewrite append_assoc.
  - reflexivity.
Qed.

Lemma replaced_append (a b : string) :
  replaced (a +:+ b) = replaced a +:+ replaced b.
Proof. unfold replaced. by rewrite !replace_append. Qed.

Lemma replaced_plain (a : string) : plain a = true -> replaced a = a.
Proof.
  unfold plain. intros [[_ Hco]%andb_true_iff Hsp]%andb_true_iff.
  apply negb_true_iff in Hco, Hsp. unfold replaced.
  by rewrite replace_same, (replace_absent "," _ _ Hco), (replace_absent " " _ _ Hsp).
Qed.

Lemma replaced_join (sep : string) (l : list string) :
  forallb plain l = true ->
  replaced (PyStr.join sep l) = PyStr.join (replaced sep) l.
Proof.
  induction l as [|x l IH]; [done|]. cbn [forallb].
  intros [Hx Hl]%andb_true_iff. destruct l as [|y l].
  - cbn [PyStr.join]. by apply replaced_plain.
  - rewrite !join_cons, !replaced_append, (replaced_plain x Hx), (IH Hl). done.
Qed.

Lemma nonempty_plain_plain (l : list string) :
  forallb nonempty_plain l = true -> forallb plain l = true.
Proof.
  rewrite !forallb_forall. intros H x Hx.
  specialize (H x Hx). unfold nonempty_plain in H. by apply andb_true_iff in H as [_ ?].
Qed.

Lemma nonempty_plain_head (x : string) :
  nonempty_plain x = true ->
  exists (c : ascii) (t : string), x = String c t /\ Ascii.eqb c ";" = false.
Proof.
  unfold nonempty_plain, plain. destruct x as [|c t]; [done|].
  cbn [PyStr.truthy PyStr.has_char andb].
  intros [[H _]%andb_true_iff _]%andb_true_iff.
  apply negb_true_iff, orb_false_iff in H as [H _]. eauto.
Qed.

Lemma endswith_append_nonempty (c : ascii) (a b : string) :
  b <> "" ->
  PyStr.endswith (String c EmptyString) (a +:+ b)
    = PyStr.endswith (String c EmptyString) b.
Proof.
  intros Hb. induction a as [|d a IH]; [done|].
  cbn [String.append PyStr.endswith String.eqb]. rewrite IH.
  destruct (a +:+ b) eqn:E.
  - destruct a; [done|discriminate E].
  - cbn [String.eqb]. by destruct (Ascii.eqb d c).
Qed.

Lemma endswith_no_char (c : ascii) (x : string) :
  PyStr.has_char c x = false -> PyStr.endswith (String c EmptyString) x = false.
Proof.
  induction x as [|d x IH]; cbn [PyStr.has_char PyStr.endswith String.eqb]; [done|].
  intros [Hd Hx]%orb_false_iff. by rewrite Hd, (IH Hx).
Qed.

Lemma join_nonempty_plain (l : list string) :
  l <> [] -> forallb nonempty_plain l = true ->
  PyStr.join ";" l <> ""
  /\ PyStr.startswith ";" (PyStr.join ";" l) = false
  /\ PyStr.endswith ";" (PyStr.join ";" l) = false.
Proof.
  induction l as [|x l IH]; [done|]. intros _. cbn [forallb].
  intros [Hx Hl]%andb_true_iff.
  destruct (nonempty_plain_head x Hx) as (c & t & -> & Hc).
  assert (PyStr.has_char ";" (String c t) = false) as Hsemi.
  { unfold nonempty_plain, plain in Hx.
    apply andb_true_iff in Hx as [_ [[H _]%andb_true_iff _]%andb_true_iff].
    by apply negb_true_iff in H. }
  destruct l as [|y l].
  - cbn [PyStr.join]. split; [done|]. split.
    + cbn [PyStr.startswith]. by rewrite Ascii.eqb_sym, Hc.
    + by apply endswith_no_char.
  - destruct IH as (Hne & _ & He); [done|done|].
    rewrite join_cons. split; [done|]. split.
    + cbn [String.append PyStr.startswith]. by rewrite Ascii.eqb_sym, Hc.
    + rewrite endswith_append_nonempty by done.
      by rewrite (endswith_append_nonempty ";" ";" _ Hne).
Qed.

(** X4.  What a user types comes out as typed: when the raw input is a
    non-empty list of non-empty addresses (no delimiter, comma or space
    inside), separated by anything the three [replace] calls turn into one
    delimiter (a comma, a comma and a space, a delimiter), normalisation
    yields [";a1;...;aN;"], and the address list of the normalised node is
    the list that was typed. *)
Theorem format_of_typed_list (n : Node) (sep : string) (l : list string) :
  l <> [] ->
  forallb nonempty_plain l = true ->
  replaced sep = ";" ->
  address_list_cache n = None ->
  addresses n = PyStr.join sep l ->
  addresses (_format_addresses n) = ";" +:+ PyStr.join ";" l +:+ ";"
  /\ (address_list (_format_addresses n)).1 = l.
Proof.
  intros Hne Hl Hsep Hc Ha.
  destruct (join_nonempty_plain l Hne Hl) as (Hj & Hs & He).
  pose proof (nonempty_plain_plain l Hl) as Hpl.
  assert (addresses (_format_addresses n) = ";" +:+ PyStr.join ";" l +:+ ";") as E.
  { rewrite format_addresses_unfold, Ha, (replaced_join sep l Hpl), Hsep.
    cbv zeta. rewrite Hs. cbn [negb].
    rewrite (endswith_append_nonempty ";" ";" _ Hj), He. reflexivity. }
  split; [exact E|].
  unfold address_list.
  change (address_list_cache (_format_addresses n)) with (address_list_cache n).
  rewrite Hc. cbn [fst].
  apply address_list_body_of_joined; try done.
  - rewrite forallb_forall in *. intros x Hx. specialize (Hpl x Hx).
    unfold plain in Hpl.
    by apply andb_true_iff in Hpl as [[? _]%andb_true_iff _].
  - rewrite forallb_forall in *. intros x Hx. specialize (Hpl x Hx).
    unfold plain in Hpl. by apply andb_true_iff in Hpl as [_ ?].
Qed.

Lemma format_of_typed_list_witness :
  ["aa:bb"; "10.0.0.1"; "fe80::1"] <> []
  /\ addresses (_format_addresses (sample "aa:bb, 10.0.0.1, fe80::1"))
     = ";" +:+ PyStr.join ";" ["aa:bb"; "10.0.0.1"; "fe80::1"] +:+ ";"
  /\ (address_list (_format_addresses (sample "aa:bb, 10.0.0.1, fe80::1"))).1
     = ["aa:bb"; "10.0.0.1"; "fe80::1"].
Proof.
  split; [discriminate|].
  apply (format_of_typed_list (sample "aa:bb, 10.0.0.1, fe80::1") ", "
           ["aa:bb"; "10.0.0.1"; "fe80::1"]);
    [discriminate|reflexivity|reflexivity|reflexivity|reflexivity].
Defined.

End RawInput.

(* ===================================================================== *)
(** ** Further properties: the accessors *)
(* ===================================================================== *)

Section Accessors.

Lemma address_list_not_nil (n : Node) :
  address_list_cache n <> Some [] -> (address_list n).1 <> [].
Proof.
  unfold address_list. destruct (address_list_cache n) as [l|]; cbn [fst].
  - intros H ->. by apply H.
  - intros _. apply address_list_body_not_nil.
Qed.

Lemma format_addresses_truthy (n : Node) :
  PyStr.truthy (addresses (_format_addresses n)) = true.
Proof.
  pose proof (format_addresses_bounded n) as [Hs _]%andb_true_iff.
  by destruct (addresses (_format_addresses n)).
Qed.

(** X5.  [netjson_id] and [local_addresses] split the address list: for a
    node with non-empty addresses whose list is not the emptied one,
    [netjson_id] is the first element, and [local_addresses] is the rest
    when there is a rest and [None] when the list has one element. *)
Theorem netjson_id_and_local_addresses (n : Node) :
  addresses n <> "" ->
  address_list_cache n <> Some [] ->
  local_addresses_cache n = None ->
  exists (x : string) (rest : list string) (n1 : Node),
    (address_list n).1 = x :: rest
    /\ netjson_id n = Ok (Some x, n1)
    /\ (local_addresses n).1 = match rest with [] => None | _ :: _ => Some rest end.
Proof.
  intros Ha Hc Hl. pose proof (address_list_not_nil n Hc) as Hne.
  unfold netjson_id, local_addresses, local_addresses_body. rewrite Hl.
  assert (PyStr.truthy (addresses n) = true) as -> by (by destruct (addresses n)).
  destruct (address_list n) as [[|x rest] n1]; [done|]. cbn [fst] in *.
  exists x, rest, n1. split; [done|]. split; [done|].
  destruct rest as [|y rest]; [done|].
  cbn [length]. destruct (1 <? Z.of_nat (S (S (length rest)))) eqn:E; [done|].
  apply Z.ltb_ge in E. lia.
Qed.

Lemma netjson_id_and_local_addresses_witness :
  addresses (sample ";aa:bb;10.0.0.1;") <> ""
  /\ exists (x : string) (rest : list string) (n1 : Node),
       (address_list (sample ";aa:bb;10.0.0.1;")).1 = x :: rest
       /\ netjson_id (sample ";aa:bb;10.0.0.1;") = Ok (Some x, n1)
       /\ (local_addresses (sample ";aa:bb;10.0.0.1;")).1
          = match rest with [] => None | _ :: _ => Some rest end.
Proof.
  split; [discriminate|].
  apply (netjson_id_and_local_addresses (sample ";aa:bb;10.0.0.1;"));
    [discriminate|discriminate|reflexivity].
Defined.

Lemma netjson_id_formatted_ok (n : Node) :
  address_list_cache n <> Some [] ->
  exists (x : string) (n1 : Node),
    netjson_id (_format_addresses n) = Ok (Some x, n1)
    /\ head (address_list (_format_addresses n)).1 = Some x.
Proof.
  intros Hc. unfold netjson_id. rewrite format_addresses_truthy.
  assert (address_list_cache (_format_addresses n) <> Some []) as Hc' by done.
  pose proof (address_list_not_nil _ Hc') as Hne.
  destruct (address_list (_format_addresses n)) as [[|x rest] n1]; [done|].
  by exists x, n1.
Qed.

(** X6.  After [_format_addresses] the addresses are never empty, so
    [netjson_id] never answers [None]: it raises [IndexError] when the
    cached address list has been emptied (by [truncate_addresses]) and
    otherwise returns the first element of the list. *)
Theorem netjson_id_after_format (n : Node) :
  (address_list_cache n = Some [] ->
   netjson_id (_format_addresses n) = Raise IndexError)
  /\ (address_list_cache n <> Some [] ->
      exists (x : string) (n1 : Node),
        netjson_id (_format_addresses n) = Ok (Some x, n1)
        /\ head (address_list (_format_addresses n)).1 = Some x).
Proof.
  split; [|apply netjson_id_formatted_ok].
  intros Hc. unfold netjson_id. rewrite format_addresses_truthy.
  unfold address_list.
  change (address_list_cache (_format_addresses n)) with (address_list_cache n).
  by rewrite Hc.
Qed.

(** X7.  [__str__] (the [name]) of a normalised node whose list was not
    emptied is always a string: the label when there is one, the first
    address otherwise. *)
Theorem str_of_formatted_node (n : Node) :
  address_list_cache n <> Some [] ->
  exists (s : string) (n1 : Node),
    __str__ (_format_addresses n) = Ok (Some s, n1)
    /\ (label n <> "" -> s = label n)
    /\ (label n = "" -> head (address_list (_format_addresses n)).1 = Some s).
Proof.
  intros Hc. unfold __str__, name.
  change (label (_format_addresses n)) with (label n).
  destruct (label n) as [|c t] eqn:El; cbn [PyStr.truthy].
  - destruct (netjson_id_formatted_ok n Hc) as (x & n1 & Hid & Hh).
    exists x, n1. by rewrite Hid.
  - eexists _, _. split; [reflexivity|]. split; done.
Qed.

Lemma str_of_formatted_node_witness :
  address_list_cache (sample "aa:bb, 10.0.0.1") <> Some []
  /\ exists (s : string) (n1 : Node),
       __str__ (_format_addresses (sample "aa:bb, 10.0.0.1")) = Ok (Some s, n1)
       /\ (label (sample "aa:bb, 10.0.0.1") <> "" ->
           s = label (sample "aa:bb, 10.0.0.1"))
       /\ (label (sample "aa:bb, 10.0.0.1") = "" ->
           head (address_list (_format_addresses (sample "aa:bb, 10.0.0.1"))).1
           = Some s).
Proof.
  split; [discriminate|].
  apply (str_of_formatted_node (sample "aa:bb, 10.0.0.1")). discriminate.
Defined.

End Accessors.

(* ===================================================================== *)
(** ** Further properties: truncation *)
(* ===================================================================== *)

Section TruncationLaws.

Lemma prefix_of_snoc (p a : list string) (y : string) :
  p `prefix_of` a ++ [y] -> p = a ++ [y] \/ p `prefix_of` a.
Proof.
  intros [k Hk]. destruct k as [|z k _] using rev_ind.
  - left. by rewrite app_nil_r in Hk.
  - right. rewrite app_assoc in Hk. apply app_inj_tail in Hk as [-> _].
    by exists k.
Qed.

Lemma prefix_of_pop (p l l1 : list string) :
  pop l = Some l1 -> p `prefix_of` l -> p = l \/ p `prefix_of` l1.
Proof.
  intros [Hne ->]%pop_Some Hp.
  pose proof (app_removelast_last EmptyString Hne) as E.
  rewrite E in Hp. apply prefix_of_snoc in Hp as [Hp|Hp]; [|by right].
  left. by rewrite E.
Qed.

(** The loop stops at the first prefix that fits: every longer prefix of
    the list overflows. *)
Lemma truncate_loop_longest (fuel : nat) :
  forall l l' : list string,
    truncate_loop fuel l = Some (Ok l') ->
    forall p : list string,
      p `prefix_of` l -> (length l' < length p)%nat -> overflows p = true.
Proof.
  induction fuel as [|fuel IH]; intros l l'; [done|]. cbn [truncate_loop].
  fold (overflows l). destruct (overflows l) eqn:Ho.
  - destruct (pop l) as [l1|] eqn:Hp; [|done]. intros Hrun p Hpre Hlen.
    destruct (prefix_of_pop _ _ _ Hp Hpre) as [->|Hpre1]; [done|].
    by apply (IH l1 l' Hrun).
  - intros [= <-] p Hpre Hlen. apply prefix_length in Hpre. lia.
Qed.

(** [truncate_addresses] on an over-long string, with the run of the loop. *)
Lemma truncate_addresses_run (n : Node) :
  max_length < PyStr.len (addresses n) ->
  exists l : list string,
    truncate_loop (S (length (address_list n).1)) (address_list n).1
      = Some (Ok l)
    /\ l `prefix_of` (address_list n).1
    /\ overflows l = false
    /\ truncate_addresses n =
         Some (Ok (set_addresses (PyStr.join ";" l)
                     (set_address_list_cache (Some l) (address_list n).2))).
Proof.
  intros Hlong. unfold truncate_addresses.
  apply Z.leb_gt in Hlong. rewrite Hlong.
  destruct (address_list n) as [l0 n1]. cbn [fst snd].
  destruct (truncate_loop_total (S (length l0)) l0) as (l & Hrun & Hpre & Hfit);
    [lia|].
  exists l. rewrite Hrun. repeat split; try done.
  unfold overflows. apply Z.ltb_ge. lia.
Qed.

(** X8.  Truncation drops no more than it has to: the list it retains fits
    and every longer prefix of the node's address list overflows. *)
Theorem truncation_keeps_longest_prefix (n : Node) :
  max_length < PyStr.len (addresses n) ->
  exists (n1 : Node) (l : list string),
    truncate_addresses n = Some (Ok n1)
    /\ address_list_cache n1 = Some l
    /\ l `prefix_of` (address_list n).1
    /\ overflows l = false
    /\ forall p : list string,
         p `prefix_of` (address_list n).1 -> (length l < length p)%nat ->
         overflows p = true.
Proof.
  intros Hlong.
  destruct (truncate_addresses_run n Hlong) as (l & Hrun & Hpre & Hfit & Ht).
  eexists _, l. split; [exact Ht|]. repeat split; try done.
  by apply (truncate_loop_longest _ _ _ Hrun).
Qed.

Lemma truncation_keeps_longest_prefix_witness :
  max_length < PyStr.len (addresses (sample long_addresses))
  /\ exists (n1 : Node) (l : list string),
       truncate_addresses (sample long_addresses) = Some (Ok n1)
       /\ address_list_cache n1 = Some l
       /\ l `prefix_of` (address_list (sample long_addresses)).1
       /\ overflows l = false
       /\ forall p : list string,
            p `prefix_of` (address_list (sample long_addresses)).1 ->
            (length l < length p)%nat -> overflows p = true.
Proof.
  split; [vm_compute; reflexivity|].
  apply (truncation_keeps_longest_prefix (sample long_addresses)).
  vm_compute. reflexivity.
Defined.

Lemma len_join_head (sep x : string) (r : list string) :
  PyStr.len x <= PyStr.len (PyStr.join sep (x :: r)).
Proof.
  destruct r as [|y r]; [cbn [PyStr.join]; lia|].
  rewrite join_cons, !len_append.
  pose proof (len_nonneg sep). pose proof (len_nonneg (PyStr.join sep (y :: r))).
  lia.
Qed.

(** X9.  When the first address alone does not fit, truncation removes
    every address, the identity included: the field becomes the empty
    string, the cached list the empty list, and once the node is
    normalised again (as [save] does) [netjson_id] raises [IndexError]. *)
Theorem truncation_can_drop_identity (n : Node) (x : string) (rest : list string) :
  max_length < PyStr.len (addresses n) ->
  (address_list n).1 = x :: rest ->
  max_length < PyStr.len x + 2 ->
  exists n1 : Node,
    truncate_addresses n = Some (Ok n1)
    /\ addresses n1 = ""
    /\ address_list_cache n1 = Some []
    /\ addresses (_format_addresses n1) = ";"
    /\ netjson_id (_format_addresses n1) = Raise IndexError.
Proof.
  intros Hlong Hal Hx.
  destruct (truncate_addresses_run n Hlong) as (l & _ & Hpre & Hfit & Ht).
  assert (l = []) as ->.
  { destruct l as [|y l]; [done|]. rewrite Hal in Hpre.
    destruct Hpre as [k Hk]. injection Hk as <- _.
    unfold overflows in Hfit. apply Z.ltb_ge in Hfit.
    pose proof (len_join_head ";" x l). lia. }
  eexists. split; [exact Ht|]. repeat split.
Qed.

Lemma truncation_can_drop_identity_witness :
  max_length < PyStr.len (addresses (sample one_long_address))
  /\ exists n1 : Node,
       truncate_addresses (sample one_long_address) = Some (Ok n1)
       /\ addresses n1 = ""
       /\ address_list_cache n1 = Some []
       /\ addresses (_format_addresses n1) = ";"
       /\ netjson_id (_format_addresses n1) = Raise IndexError.
Proof.
  split; [vm_compute; reflexivity|].
  apply (truncation_can_drop_identity (sample one_long_address)
           (PyStr.drop_last one_long_address) []);
    vm_compute; reflexivity.
Defined.

(** X10.  Truncation and normalisation compose: after [truncate_addresses]
    has shortened an over-long string and [_format_addresses] has put the
    delimiters back, the string fits, so a second [truncate_addresses]
    returns the node as it is. *)
Theorem truncate_format_truncate (n : Node) :
  max_length < PyStr.len (addresses n) ->
  exists n1 : Node,
    truncate_addresses n = Some (Ok n1)
    /\ PyStr.len (addresses (_format_addresses n1)) <= max_length
    /\ truncate_addresses (_format_addresses n1)
       = Some (Ok (_format_addresses n1)).
Proof.
  intros Hlong.
  destruct (truncate_addresses_run n Hlong) as (l & _ & _ & Hfit & Ht).
  eexists. split; [exact Ht|].
  set (n1 := set_addresses _ _).
  assert (PyStr.len (addresses (_format_addresses n1)) <= max_length) as Hlen.
  { pose proof (format_addresses_len n1) as H.
    change (addresses n1) with (PyStr.join ";" l) in H.
    unfold overflows in Hfit. apply Z.ltb_ge in Hfit. lia. }
  split; [done|]. unfold truncate_addresses.
  apply Z.leb_le in Hlen. by rewrite Hlen.
Qed.

Lemma truncate_format_truncate_witness :
  max_length < PyStr.len (addresses (sample long_addresses))
  /\ exists n1 : Node,
       truncate_addresses (sample long_addresses) = Some (Ok n1)
       /\ PyStr.len (addresses (_format_addresses n1)) <= max_length
       /\ truncate_addresses (_format_addresses n1)
          = Some (Ok (_format_addresses n1)).
Proof.
  split; [vm_compute; reflexivity|].
  apply (truncate_format_truncate (sample long_addresses)).
  vm_compute. reflexivity.
Defined.

(** X11.  The length test of [truncate_addresses] looks at the string
    before normalisation: a string of exactly the maximum length without a
    leading delimiter (and without spaces and commas) passes it untouched,
    and the delimiter that [_format_addresses] then adds makes it longer
    than the maximum. *)
Theorem truncate_misses_unformatted (n : Node) :
  PyStr.len (addresses n) = max_length ->
  PyStr.has_char " " (addresses n) = false ->
  PyStr.has_char "," (addresses n) = false ->
  PyStr.startswith ";" (addresses n) = false ->
  truncate_addresses n = Some (Ok n)
  /\ max_length < PyStr.len (addresses (_format_addresses n)).
Proof.
  intros Hlen Hsp Hco Hs. split.
  - unfold truncate_addresses. rewrite Hlen. reflexivity.
  - rewrite format_addresses_unfold. cbv zeta.
    assert (replaced (addresses n) = addresses n) as ->.
    { unfold replaced.
      by rewrite replace_same, (replace_absent "," _ _ Hco),
                 (replace_absent " " _ _ Hsp). }
    rewrite Hs. cbn [negb].
    destruct (negb (PyStr.endswith ";" (";" +:+ addresses n)));
      rewrite ?len_append; change (PyStr.len ";") with 1; lia.
Qed.

Lemma truncate_misses_unformatted_witness :
  PyStr.len (addresses (sample (PyStr.repeat "a" 510))) = max_length
  /\ truncate_addresses (sample (PyStr.repeat "a" 510))
     = Some (Ok (sample (PyStr.repeat "a" 510)))
  /\ max_length
     < PyStr.len (addresses (_format_addresses (sample (PyStr.repeat "a" 510)))).
Proof.
  split; [vm_compute; reflexivity|].
  apply (truncate_misses_unformatted (sample (PyStr.repeat "a" 510)));
    vm_compute; reflexivity.
Defined.

End TruncationLaws.

(* ===================================================================== *)
(** ** Further properties: serialisation and [clean] *)
(* ===================================================================== *)

Section SerialisationLaws.


(** the entries [json] adds for the label and the local addresses *)
Lemma json_attrs_mapping (h : Heap) (i : value) (n : Node) :
  (json_attrs ["label"; "local_addresses"; "properties"] h [("id", i)] n).1
  = [("id", i)]
    ++ (if PyStr.truthy (label n) then [("label", VStr (label n))] else [])
    ++ match (local_addresses n).1 with
       | Some (y :: t) => [("local_addresses", VList (y :: t))]
       | _ => []
       end
    ++ [("properties",
         match properties n with Some r => VRef r | None => VNone end)].
Proof.
  cbn [json_attrs]. unfold getattr.
  cbn [String.eqb Ascii.eqb Bool.eqb].
  pose proof (local_addresses_fields n) as (_ & _ & _ & _ & Ep & _).
  destruct (local_addresses n) as [la n2]. cbn [fst snd] in *.
  rewrite orb_true_r, !orb_false_r, Ep. cbn [truthy_value].
  destruct (PyStr.truthy (label n)); destruct la as [[|y t]|]; reflexivity.
Qed.

Lemma dict_set_same (k : string) (v : value) (d : pydict) :
  dict_get k d = Some v -> dict_set k v d = d.
Proof.
  induction d as [|[k' v'] d IH]; cbn [dict_get dict_set]; [done|].
  destruct (String.eqb k' k) eqn:E.
  - apply String.eqb_eq in E. subst k'. by intros [= ->].
  - intros H. by rewrite (IH H).
Qed.

Lemma heap_setitem_same (r : loc) (k : string) (v : value) (h : Heap) :
  is_Some (h !! r) -> dict_get k (deref h r) = Some v ->
  heap_setitem r k v h = h.
Proof.
  intros [d Hd] Hg. unfold heap_setitem. rewrite (dict_set_same _ _ _ Hg).
  apply insert_id. unfold deref. by rewrite Hd.
Qed.

Lemma address_list_cached (n : Node) :
  address_list_cache (address_list n).2 = Some (address_list n).1.
Proof.
  unfold address_list. by destruct (address_list_cache n) eqn:E.
Qed.

Lemma address_list_of_cache (n : Node) (l : list string) :
  address_list_cache n = Some l -> address_list n = (l, n).
Proof. intros H. unfold address_list. by rewrite H. Qed.

Lemma local_addresses_again (n : Node) :
  local_addresses (local_addresses n).2
    = ((local_addresses n).1, (local_addresses n).2).
Proof.
  unfold local_addresses at 2 3 4.
  destruct (local_addresses_cache n) as [v|] eqn:E; cbn [fst snd].
  - unfold local_addresses. by rewrite E.
  - destruct (local_addresses_body n) as [v nb]. cbn [fst snd].
    reflexivity.
Qed.

(** after [netjson_id], reading [local_addresses] keeps what [netjson_id]
    answers *)
Lemma netjson_id_after_local (n n1 : Node) (i : option string) :
  netjson_id n = Ok (i, n1) ->
  netjson_id (local_addresses n1).2 = Ok (i, (local_addresses n1).2).
Proof.
  unfold netjson_id at 1.
  destruct (PyStr.truthy (addresses n)) eqn:Ht.
  - pose proof (address_list_cached n) as Hc.
    pose proof (address_list_fields n) as (_ & _ & _ & Ea & _).
    destruct (address_list n) as [[|x l] na]; [done|]. cbn [fst snd] in *.
    intros [= <- <-].
    assert (address_list_cache (local_addresses na).2 = Some (x :: l)
            /\ addresses (local_addresses na).2 = addresses n) as [Hc2 Ea2].
    { unfold local_addresses. destruct (local_addresses_cache na); [done|].
      unfold local_addresses_body. rewrite Ea, Ht, (address_list_of_cache _ _ Hc).
      by destruct (1 <? Z.of_nat (length (x :: l))). }
    unfold netjson_id. by rewrite Ea2, Ht, (address_list_of_cache _ _ Hc2).
  - intros [= <- <-].
    assert (addresses (local_addresses n).2 = addresses n) as Ea2.
    { by destruct (local_addresses_fields n) as (_ & _ & _ & ? & _). }
    unfold netjson_id. by rewrite Ea2, Ht.
Qed.

Lemma json_attrs_node (h : Heap) (m : pydict) (n : Node) :
  (json_attrs ["label"; "local_addresses"; "properties"] h m n).2
  = (local_addresses n).2.
Proof.
  cbn [json_attrs]. unfold getattr. cbn [String.eqb Ascii.eqb Bool.eqb].
  by destruct (local_addresses n) as [la n2].
Qed.

(** [json], step by step, for a node that holds a [properties] object. *)
Lemma json_return_ok (dumps : Heap -> pydict -> result string) (dict : bool)
    (m : pydict) (n n' : Node) (h h' : Heap) (o : json_output) :
  json_return dumps dict m n h = Ok (o, n', h') -> n' = n /\ h' = h.
Proof.
  unfold json_return. destruct dict; [by intros [= _ <- <-]|].
  destruct (dumps h m); [by intros [= _ <- <-]|done].
Qed.

(** [json], step by step, for a node that holds a [properties] object. *)
Lemma json_unfold (dumps : Heap -> pydict -> result string) (dict : bool)
    (n n1 : Node) (h : Heap) (i : option string) (r : loc) :
  netjson_id n = Ok (i, n1) -> properties n = Some r ->
  json dumps dict n h
  = json_return dumps dict
      (netjson_of i (label n) (local_addresses n1).1 r)
      (local_addresses n1).2
      (heap_setitem r "modified" (VTime (modified n))
         (heap_setitem r "created" (VTime (created n)) h)).
Proof.
  intros Hid Hp. unfold json, json_return. rewrite Hid.
  pose proof (netjson_id_fields _ _ _ Hid) as Hf1.
  pose proof (json_attrs_node h [("id", value_of_id i)] n1) as Hn.
  pose proof (json_attrs_mapping h (value_of_id i) n1) as Hm.
  destruct (json_attrs _ h _ n1) as [m n2] eqn:Hattrs. cbn [fst snd] in *.
  apply json_attrs_properties in Hattrs as [Hf2 Hget].
  pose proof (same_fields_trans _ _ _ Hf1 Hf2) as (_ & _ & _ & _ & _ & Ec & Em).
  destruct Hf1 as (_ & _ & El & _ & Ep & _).
  rewrite Ep, Hp in Hget, Hm. rewrite El in Hm.
  unfold set_property. rewrite Hget, Ec, Em, Hn, Hm. reflexivity.
Qed.

(** X12.  The shape of the NetJSON object: [id] comes first and
    [properties] last and always; [label] is there exactly when the label
    is not empty and [local_addresses] exactly when there are some.  With
    [dict] set [json] returns this mapping; otherwise it hands the mapping
    to the encoder and returns the text, or raises what the encoder
    raises. *)
Theorem json_mapping (dumps : Heap -> pydict -> result string)
    (n n1 : Node) (h : Heap) (i : option string) (r : loc) :
  netjson_id n = Ok (i, n1) ->
  properties n = Some r ->
  exists (n' : Node) (h' : Heap),
    json dumps true n h
    = Ok (AsDict
            ([("id", value_of_id i)]
             ++ (if PyStr.truthy (label n) then [("label", VStr (label n))]
                 else [])
             ++ match (local_addresses n1).1 with
                | Some (y :: t) => [("local_addresses", VList (y :: t))]
                | _ => []
                end
             ++ [("properties", VRef r)]),
          n', h')
    /\ json dumps false n h
       = match dumps h'
                 ([("id", value_of_id i)]
                  ++ (if PyStr.truthy (label n) then [("label", VStr (label n))]
                      else [])
                  ++ match (local_addresses n1).1 with
                     | Some (y :: t) => [("local_addresses", VList (y :: t))]
                     | _ => []
                     end
                  ++ [("properties", VRef r)]) with
         | Raise e => Raise e
         | Ok text => Ok (AsText text, n', h')
         end.
Proof.
  intros Hid Hp. eexists _, _.
  rewrite !(json_unfold dumps _ n n1 h i r Hid Hp). split; reflexivity.
Qed.

Lemma json_mapping_witness :
  exists (n1 n' : Node) (h' : Heap),
    netjson_id serial_node = Ok (Some "aa:bb:cc:dd:ee:ff", n1)
    /\ json dumps_fails true serial_node serial_heap
       = Ok (AsDict
               ([("id", VStr "aa:bb:cc:dd:ee:ff")]
                ++ (if PyStr.truthy (label serial_node)
                    then [("label", VStr (label serial_node))] else [])
                ++ match (local_addresses n1).1 with
                   | Some (y :: t) => [("local_addresses", VList (y :: t))]
                   | _ => []
                   end
                ++ [("properties", VRef 0%nat)]),
             n', h')
    /\ json dumps_fails false serial_node serial_heap = Raise ValueError.
Proof.
  eexists.
  destruct (json_mapping dumps_fails serial_node _ serial_heap
              (Some "aa:bb:cc:dd:ee:ff") 0%nat eq_refl eq_refl)
    as (n' & h' & H1 & H2).
  exists n', h'. split; [reflexivity|]. split; [exact H1|exact H2].
Defined.

(** X13.  What [json] writes: in the [dict] the node holds as
    [properties] every key other than [created] and [modified] keeps its
    value, and every other object of the heap is left as it was. *)
Theorem json_frame (dumps : Heap -> pydict -> result string) (dict : bool)
    (n n' : Node) (h h' : Heap) (o : json_output) (r : loc) :
  properties n = Some r ->
  json dumps dict n h = Ok (o, n', h') ->
  same_fields n n'
  /\ (forall r' : loc, r' <> r -> h' !! r' = h !! r')
  /\ (forall k : string,
        k <> "created" -> k <> "modified" ->
        dict_get k (deref h' r) = dict_get k (deref h r)).
Proof.
  intros Hp Hj.
  destruct (netjson_id n) as [[i n1]|e] eqn:Hid;
    [|unfold json in Hj; by rewrite Hid in Hj].
  rewrite (json_unfold dumps dict n n1 h i r Hid Hp) in Hj.
  apply json_return_ok in Hj as [-> ->].
  split; [|split].
  - eapply same_fields_trans; [by eapply netjson_id_fields|].
    apply local_addresses_fields.
  - intros r' Hr'. unfold heap_setitem. by rewrite !lookup_insert_ne.
  - intros k Hc Hm. rewrite !deref_setitem.
    by rewrite !dict_get_set_ne.
Qed.

Lemma json_frame_witness :
  exists (o : json_output) (n' : Node) (h' : Heap),
    json dumps_blank false serial_node serial_heap = Ok (o, n', h')
    /\ same_fields serial_node n'
    /\ (forall r' : loc, r' <> 0%nat -> h' !! r' = serial_heap !! r')
    /\ (forall k : string,
          k <> "created" -> k <> "modified" ->
          dict_get k (deref h' 0%nat) = dict_get k (deref serial_heap 0%nat)).
Proof.
  eexists _, _, _. split; [vm_compute; reflexivity|].
  eapply (json_frame dumps_blank false serial_node); [reflexivity|].
  vm_compute. reflexivity.
Defined.

(** X14.  The errors of [json]: an [IndexError] of [netjson_id] goes
    through; with [properties] equal to [None] the assignment of [created]
    raises [TypeError]; with a [properties] object, [json] returns when
    [dict] is set, and otherwise returns or raises as the encoder does on
    the mapping. *)
Theorem json_errors (dumps : Heap -> pydict -> result string) (n : Node)
    (h : Heap) :
  (forall (dict : bool) (e : exn),
     netjson_id n = Raise e -> json dumps dict n h = Raise e)
  /\ (forall (dict : bool) (i : option string) (n1 : Node),
        netjson_id n = Ok (i, n1) -> properties n = None ->
        json dumps dict n h = Raise TypeError)
  /\ (forall (i : option string) (n1 : Node) (r : loc),
        netjson_id n = Ok (i, n1) -> properties n = Some r ->
        exists (m : pydict) (n' : Node) (h' : Heap),
          json dumps true n h = Ok (AsDict m, n', h')
          /\ json dumps false n h
             = match dumps h' m with
               | Raise e => Raise e
               | Ok text => Ok (AsText text, n', h')
               end).
Proof.
  split; [|split].
  - intros dict e He. unfold json. by rewrite He.
  - intros dict i n1 Hid Hp. unfold json. rewrite Hid.
    pose proof (netjson_id_fields _ _ _ Hid) as (_ & _ & _ & _ & Ep & _).
    destruct (json_attrs _ h _ n1) as [m n2] eqn:Hattrs.
    apply json_attrs_properties in Hattrs as [_ Hget].
    rewrite Ep, Hp in Hget. unfold set_property. by rewrite Hget.
  - intros i n1 r Hid Hp. eexists _, _, _.
    rewrite !(json_unfold dumps _ n n1 h i r Hid Hp). split; reflexivity.
Qed.


(** X15.  [clean] repairs a missing [properties]: afterwards the node
    holds a [dict]; one that was there is kept and the heap is untouched;
    one that was missing is a new, empty object at an address no object
    had, and every object of the heap is still what it was. *)
Theorem clean_properties (n : Node) (h : Heap) :
  (forall r : loc, properties n = Some r -> clean n h = (n, h))
  /\ (properties n = None ->
      exists r : loc,
        properties (clean n h).1 = Some r
        /\ h !! r = None
        /\ (clean n h).2 !! r = Some []
        /\ forall r' : loc, r' <> r -> (clean n h).2 !! r' = h !! r').
Proof.
  split.
  - intros r Hp. unfold clean. by rewrite Hp.
  - intros Hp. unfold clean. rewrite Hp. cbn [fst snd properties set_properties].
    exists (fresh (dom h)). split; [done|]. split; [|split].
    + apply not_elem_of_dom. apply is_fresh.
    + apply lookup_insert_eq.
    + intros r' Hr'. by apply lookup_insert_ne.
Qed.



End SerialisationLaws.

Section SerialisationTwice.

(** X17.  Serialising twice is serialising once: a second [json] returns
    the same object, and leaves the node and the heap as the first call
    left them (the two keys are overwritten in place, not added again). *)
Theorem json_twice (dumps : Heap -> pydict -> result string) (dict : bool)
    (n n' : Node) (h h' : Heap) (o : json_output) (r : loc) :
  properties n = Some r ->
  json dumps dict n h = Ok (o, n', h') ->
  json dumps dict n' h' = Ok (o, n', h').
Proof.
  intros Hp Hj.
  destruct (netjson_id n) as [[i n1]|e] eqn:Hid;
    [|unfold json in Hj; by rewrite Hid in Hj].
  rewrite (json_unfold dumps dict n n1 h i r Hid Hp) in Hj.
  pose proof (json_return_ok _ _ _ _ _ _ _ _ Hj) as [-> ->].
  pose proof (netjson_id_after_local _ _ _ Hid) as Hid2.
  pose proof (netjson_id_fields _ _ _ Hid) as Hf1.
  pose proof (local_addresses_fields n1) as Hf2.
  pose proof (same_fields_trans _ _ _ Hf1 Hf2)
    as (_ & _ & El & _ & Ep & Ec & Em).
  set (n2 := (local_addresses n1).2) in *.
  set (h1 := heap_setitem r "created" (VTime (created n)) h) in *.
  set (h2 := heap_setitem r "modified" (VTime (modified n)) h1) in *.
  assert (properties n2 = Some r) as Hp2 by congruence.
  rewrite (json_unfold dumps dict n2 n2 h2 i r Hid2 Hp2).
  assert ((local_addresses n2).2 = n2 /\ (local_addresses n2).1 = (local_addresses n1).1)
    as [E2 E1].
  { unfold n2. by rewrite local_addresses_again. }
  rewrite E2, Ec, Em, E1, El.
  assert (is_Some (h2 !! r)) as Hs.
  { unfold h2, heap_setitem. rewrite lookup_insert_eq. eauto. }
  assert (dict_get "created" (deref h2 r) = Some (VTime (created n))) as Hgc.
  { unfold h2, h1. rewrite !deref_setitem.
    rewrite dict_get_set_ne by done. apply dict_get_set_eq. }
  assert (dict_get "modified" (deref h2 r) = Some (VTime (modified n))) as Hgm.
  { unfold h2. rewrite deref_setitem. apply dict_get_set_eq. }
  rewrite (heap_setitem_same r "created" _ h2 Hs Hgc).
  rewrite (heap_setitem_same r "modified" _ h2 Hs Hgm).
  exact Hj.
Qed.

Lemma json_twice_witness :
  exists (o : json_output) (n' : Node) (h' : Heap),
    json dumps_blank false serial_node serial_heap = Ok (o, n', h')
    /\ json dumps_blank false n' h' = Ok (o, n', h').
Proof.
  destruct (json dumps_blank false serial_node serial_heap)
    as [[[o n'] h']|e] eqn:E;
    [|exfalso; vm_compute in E; discriminate E].
  exists o, n', h'. split; [reflexivity|].
  apply (json_twice dumps_blank false serial_node n' serial_heap h' o 0%nat
           eq_refl E).
Defined.

End SerialisationTwice.

(* ===================================================================== *)
(** ** Further properties: identity lookup *)
(* ===================================================================== *)

Section LookupLaws.














(** X20.  The two lookups agree: [get_from_address] answers [None]
    exactly when [count_address] answers 0, and [count_address] is never
    negative. *)
Theorem lookup_miss (rule : case_rule) (address : string) (topo : Z) (db : DB) :
  0 <= count_address rule address topo db
  /\ (get_from_address rule address topo db = None
      <-> count_address rule address topo db = 0).
Proof.
  unfold get_from_address, count_address. split; [lia|]. split.
  - intros ->%first_None. done.
  - destruct (address_filter rule address topo db); [done|]. cbn [length]. lia.
Qed.




End LookupLaws.

(* ===================================================================== *)
(** ** Further properties: the expiration sweep *)
(* ===================================================================== *)

Section SweepLaws.

Lemma isnull_iff_unlinked (db : DB) (r : NodeRow) :
  source_link_set_isnull db r && target_link_set_isnull db r = true
  <-> unlinked db r.
Proof.
  unfold source_link_set_isnull, target_link_set_isnull, unlinked.
  rewrite andb_true_iff, !forallb_forall. split.
  - intros [Hs Ht] l Hl. specialize (Hs l Hl). specialize (Ht l Hl).
    apply negb_true_iff, Z.eqb_neq in Hs, Ht. done.
  - intros Hu. split; intros l Hl; apply negb_true_iff, Z.eqb_neq; by apply Hu.
Qed.

Lemma survives_In (es : list NodeRow) (r : NodeRow) :
  survives es r = false ->
  exists e : NodeRow, In e es /\ row_pk e = row_pk r.
Proof.
  unfold survives. induction es as [|e es IH]; cbn [forallb]; [done|].
  intros [H|H]%andb_false_iff.
  - apply negb_false_iff, Z.eqb_eq in H. exists e. split; [by left|done].
  - destruct (IH H) as (e' & He' & Hpk). exists e'. split; [by right|done].
Qed.

(** A sweep that returned with both settings active had a day count that
    a [timedelta] holds and a cutoff that is a [datetime]. *)
Lemma sweep_ok_inv (NE LE : setting) (now : Z) (db db' : DB)
    (log : list string) :
  in_False_None NE = false -> in_False_None LE = false ->
  delete_expired_nodes NE LE now db = Ok (db', log) ->
  exists days : Z,
    py_int NE = Ok days
    /\ -999999999 <= days <= 999999999
    /\ cutoff_in_range now days.
Proof.
  intros HNE HLE. unfold delete_expired_nodes. rewrite HNE, HLE.
  cbn [negb andb]. destruct (py_int NE) as [days|e]; [|done].
  unfold timedelta, datetime_sub, cutoff_in_range. cbv zeta.
  destruct (-999999999 <=? days) eqn:E1; [|done].
  destruct (days <=? 999999999) eqn:E2; [|done]. cbn [andb].
  destruct (0 <=? now - timedelta_days days) eqn:E3; [|done].
  destruct (now - timedelta_days days <=? datetime_max) eqn:E4; [|done].
  intros _. exists days. apply Z.leb_le in E1, E2, E3, E4. done.
Qed.

(** What a sweep that returned has done. *)
Lemma sweep_ok_cases (NE LE : setting) (now : Z) (db db' : DB)
    (log : list string) :
  delete_expired_nodes NE LE now db = Ok (db', log) ->
  (db' = db /\ log = [])
  \/ exists (cut : Z) (e : NodeRow) (es : list NodeRow),
       List.filter (expired cut db) (nodes db) = e :: es
       /\ db' = foldl (fun d node => delete_node node d) db (e :: es).
Proof.
  intros Hrun.
  destruct (in_False_None NE) eqn:HNE.
  { left. rewrite sweep_disabled in Hrun by (by left). by injection Hrun as <- <-. }
  destruct (in_False_None LE) eqn:HLE.
  { left. rewrite sweep_disabled in Hrun by (by right). by injection Hrun as <- <-. }
  destruct (sweep_ok_inv _ _ _ _ _ _ HNE HLE Hrun) as (days & Hint & Hd & Hc).
  destruct (sweep_cutoff days now Hd Hc) as [Htd Hsub].
  unfold delete_expired_nodes in Hrun.
  rewrite HNE, HLE, Hint, Htd, Hsub in Hrun. cbn [negb andb] in Hrun.
  destruct (List.filter _ (nodes db)) as [|e es] eqn:E; cbn [length] in Hrun.
  - left. by injection Hrun as <- <-.
  - right. exists (now - timedelta_days days), e, es.
    split; [done|]. by injection Hrun as <- _.
Qed.

(** X22.  Whenever the sweep returns, whatever the two settings are, it
    has added no node, touched no link, and kept every node that some link
    starts or ends at. *)
Theorem sweep_spares_linked_nodes (NE LE : setting) (now : Z) (db db' : DB)
    (log : list string) :
  delete_expired_nodes NE LE now db = Ok (db', log) ->
  links db' = links db
  /\ (forall r : NodeRow, In r (nodes db') -> In r (nodes db))
  /\ (forall r : NodeRow,
        In r (nodes db) -> ~ unlinked db r -> In r (nodes db')).
Proof.
  intros Hrun.
  destruct (sweep_ok_cases _ _ _ _ _ _ Hrun) as [[-> _]|(cut & e & es & Hes & ->)];
    [done|].
  destruct (delete_loop (e :: es) db) as [Hn Hl]. rewrite Hn, Hl.
  split; [done|]. split.
  - intros r Hr. by apply filter_In in Hr as [? _].
  - intros r Hr Hlinked. apply filter_In. split; [done|].
    apply not_false_iff_true. intros Hs.
    destruct (survives_In _ _ Hs) as (e' & He' & Hpk).
    rewrite <- Hes in He'. apply filter_In in He' as [_ He'].
    apply Hlinked, isnull_iff_unlinked.
    unfold expired in He'. apply andb_true_iff in He' as [[_ Hs']%andb_true_iff Ht'].
    unfold source_link_set_isnull, target_link_set_isnull in *.
    rewrite <- Hpk. by rewrite Hs', Ht'.
Qed.

Lemma sweep_spares_linked_nodes_witness :
  exists (db' : DB) (log : list string),
    delete_expired_nodes (SInt 30) (SInt 30) sweep_now sweep_db = Ok (db', log)
    /\ links db' = links sweep_db
    /\ (forall r : NodeRow, In r (nodes db') -> In r (nodes sweep_db))
    /\ (forall r : NodeRow,
          In r (nodes sweep_db) -> ~ unlinked sweep_db r -> In r (nodes db')).
Proof.
  eexists _, _. split; [vm_compute; reflexivity|].
  eapply (sweep_spares_linked_nodes (SInt 30) (SInt 30) sweep_now sweep_db).
  vm_compute. reflexivity.
Defined.

Lemma expired_links (cut : Z) (db db' : DB) (r : NodeRow) :
  links db' = links db -> expired cut db' r = expired cut db r.
Proof.
  intros H. unfold expired, source_link_set_isnull, target_link_set_isnull.
  by rewrite H.
Qed.

Lemma filter_negb_nil (f : NodeRow -> bool) (l : list NodeRow) :
  List.filter f (List.filter (fun r => negb (f r)) l) = [].
Proof.
  rewrite filter_filter. induction l as [|x l IH]; [done|].
  cbn [List.filter]. by destruct (f x).
Qed.

(** X23.  The sweep is idempotent: on a node table with unique primary
    keys, a second sweep at the same instant and with the same settings
    finds nothing to delete and logs nothing. *)
Theorem sweep_twice (NE LE : setting) (now : Z) (db db' : DB)
    (log : list string) :
  List.NoDup (map row_pk (nodes db)) ->
  delete_expired_nodes NE LE now db = Ok (db', log) ->
  delete_expired_nodes NE LE now db' = Ok (db', []).
Proof.
  intros Hnd Hrun.
  destruct (in_False_None NE) eqn:HNE;
    [apply sweep_disabled; by left|].
  destruct (in_False_None LE) eqn:HLE;
    [apply sweep_disabled; by right|].
  destruct (sweep_ok_inv _ _ _ _ _ _ HNE HLE Hrun) as (days & Hint & Hd & Hc).
  destruct (sweep_active NE LE days now db HNE HLE Hint Hd Hc Hnd)
    as (db1 & log1 & Hrun1 & Hl & Hn).
  rewrite Hrun in Hrun1. injection Hrun1 as <- <-.
  destruct (sweep_cutoff days now Hd Hc) as [Htd Hsub].
  unfold delete_expired_nodes. rewrite HNE, HLE, Hint, Htd, Hsub.
  cbn [negb andb].
  rewrite Hn.
  rewrite (filter_ext _ (expired (now - timedelta_days days) db)
             (fun r => expired_links _ db db' r Hl)).
  by rewrite filter_negb_nil.
Qed.

Lemma sweep_twice_witness :
  exists (db' : DB) (log : list string),
    List.NoDup (map row_pk (nodes sweep_db))
    /\ delete_expired_nodes (SInt 30) (SInt 30) sweep_now sweep_db = Ok (db', log)
    /\ delete_expired_nodes (SInt 30) (SInt 30) sweep_now db' = Ok (db', []).
Proof.
  eexists _, _.
  assert (List.NoDup (map row_pk (nodes sweep_db))) as Hnd.
  { repeat (apply List.NoDup_cons; [cbn; intuition discriminate|]).
    apply List.NoDup_nil. }
  split; [exact Hnd|]. split; [vm_compute; reflexivity|].
  eapply (sweep_twice (SInt 30) (SInt 30) sweep_now sweep_db); [exact Hnd|].
  vm_compute. reflexivity.
Defined.

(** X24.  A day count of 0 switches the sweep off: [0 == False] in Python,
    so [0 in [False, None]] holds, for either setting. *)
Theorem sweep_zero_is_off (NE LE : setting) (now : Z) (db : DB) :
  NE = SInt 0 \/ LE = SInt 0 ->
  delete_expired_nodes NE LE now db = Ok (db, []).
Proof. intros [-> | ->]; apply sweep_disabled; auto. Qed.

Lemma sweep_zero_is_off_witness :
  delete_expired_nodes (SInt 30) (SInt 0) sweep_now sweep_db = Ok (sweep_db, []).
Proof.
  apply (sweep_zero_is_off (SInt 30) (SInt 0) sweep_now sweep_db). by right.
Defined.

Lemma filter_length_split (f : NodeRow -> bool) (l : list NodeRow) :
  length l
  = (length (List.filter f l)
     + length (List.filter (fun r => negb (f r)) l))%nat.
Proof.
  induction l as [|x l IH]; [done|]. cbn [List.filter].
  destruct (f x); cbn [negb length]; lia.
Qed.

(** X25.  The report is exact: with both settings active (a day count
    that a [timedelta] holds, a cutoff that is a [datetime]) and unique
    primary keys, the sweep logs nothing when it deletes nothing and
    otherwise logs one line carrying the number of rows it removed. *)
Theorem sweep_log_counts (NE LE : setting) (days now : Z) (db : DB) :
  in_False_None NE = false -> in_False_None LE = false ->
  py_int NE = Ok days ->
  -999999999 <= days <= 999999999 ->
  0 <= now - timedelta_days days <= datetime_max ->
  List.NoDup (map row_pk (nodes db)) ->
  exists (db' : DB) (log : list string) (k : nat),
    delete_expired_nodes NE LE now db = Ok (db', log)
    /\ length (nodes db) = (length (nodes db') + k)%nat
    /\ log = match k with
             | O => []
             | S _ => ["Deleting " +:+ pretty (Z.of_nat k) +:+ " expired nodes"]
             end.
Proof.
  intros HNE HLE Hint Hd Hc Hnd.
  destruct (sweep_active NE LE days now db HNE HLE Hint Hd Hc Hnd)
    as (db' & log & Hrun & _ & Hn).
  destruct (sweep_cutoff days now Hd Hc) as [Htd Hsub].
  set (cut := now - timedelta_days days) in *.
  exists db', log, (length (List.filter (expired cut db) (nodes db))).
  split; [done|]. split.
  - rewrite Hn. rewrite (filter_length_split (expired cut db) (nodes db)) at 1. lia.
  - unfold delete_expired_nodes in Hrun.
    rewrite HNE, HLE, Hint, Htd, Hsub in Hrun.
    cbn [negb andb] in Hrun. fold cut in Hrun.
    destruct (List.filter (expired cut db) (nodes db)); cbn [length] in *;
      by injection Hrun as _ <-.
Qed.

Lemma sweep_log_counts_witness :
  exists (db' : DB) (log : list string) (k : nat),
    delete_expired_nodes (SInt 30) (SInt 30) sweep_now sweep_db = Ok (db', log)
    /\ length (nodes sweep_db) = (length (nodes db') + k)%nat
    /\ log = match k with
             | O => []
             | S _ => ["Deleting " +:+ pretty (Z.of_nat k) +:+ " expired nodes"]
             end.
Proof.
  apply (sweep_log_counts (SInt 30) (SInt 30) 30 sweep_now sweep_db);
    [reflexivity|reflexivity|reflexivity|split; discriminate
    |split; discriminate|].
  repeat (apply List.NoDup_cons; [cbn; intuition discriminate|]).
  apply List.NoDup_nil.
Defined.



End SweepLaws.

(* ===================================================================== *)
(** ** Further properties: edge behaviour of the accessors *)
(* ===================================================================== *)

Section AccessorEdges.

(** X26.  [address_list] takes the last character of the string for the
    trailing delimiter without looking at it: on a string that has no
    space and no leading delimiter, the list, joined again, is the string
    without its last character, whatever that character is. *)
Theorem address_list_drops_last_character (n : Node) (b : string) (c : ascii) :
  address_list_cache n = None ->
  PyStr.has_char " " (addresses n) = false ->
  PyStr.startswith ";" (addresses n) = false ->
  addresses n = b +:+ String c EmptyString ->
  PyStr.join ";" (address_list n).1 = b.
Proof.
  intros Hc Hsp Hs Ha. unfold address_list. rewrite Hc. cbn [fst].
  unfold address_list_body. rewrite (replace_absent " " _ _ Hsp), Hs, Ha.
  rewrite drop_last_append. apply join_split.
Qed.

Lemma address_list_drops_last_character_witness :
  address_list_cache (sample "aa:bb;10.0.0.1") = None
  /\ PyStr.join ";" (address_list (sample "aa:bb;10.0.0.1")).1 = "aa:bb;10.0.0.".
Proof.
  split; [reflexivity|].
  apply (address_list_drops_last_character (sample "aa:bb;10.0.0.1")
           "aa:bb;10.0.0." "1"); reflexivity.
Defined.

(** X27.  [__str__] answers [None] exactly for a node without label and
    without addresses, and then leaves the node as it is. *)
Theorem str_is_none (n n1 : Node) :
  __str__ n = Ok (None, n1) <-> label n = "" /\ addresses n = "" /\ n1 = n.
Proof.
  unfold __str__, name, netjson_id. split.
  - destruct (label n) as [|c t]; cbn [PyStr.truthy]; [|done].
    destruct (addresses n) as [|d u]; cbn [PyStr.truthy].
    + by intros [= <-].
    + by destruct (address_list n) as [[|x l] n2].
  - intros (-> & -> & ->). reflexivity.
Qed.

Lemma netjson_id_after_format_witness :
  address_list_cache emptied_node = Some []
  /\ netjson_id (_format_addresses emptied_node) = Raise IndexError
  /\ address_list_cache (sample "aa:bb") <> Some []
  /\ exists (x : string) (n1 : Node),
       netjson_id (_format_addresses (sample "aa:bb")) = Ok (Some x, n1)
       /\ head (address_list (_format_addresses (sample "aa:bb"))).1 = Some x.
Proof.
  split; [reflexivity|]. split.
  - apply (proj1 (netjson_id_after_format emptied_node)). reflexivity.
  - split; [discriminate|].
    apply (proj2 (netjson_id_after_format (sample "aa:bb"))). discriminate.
Defined.

Lemma json_errors_witness :
  json dumps_fails true emptied_node serial_heap = Raise IndexError
  /\ json dumps_fails false (sample ";aa:bb;") serial_heap = Raise TypeError
  /\ exists (m : pydict) (n' : Node) (h' : Heap),
       json dumps_fails true serial_node serial_heap = Ok (AsDict m, n', h')
       /\ json dumps_fails false serial_node serial_heap
          = match dumps_fails h' m with
            | Raise e => Raise e
            | Ok text => Ok (AsText text, n', h')
            end.
Proof.
  split; [|split].
  - apply (proj1 (json_errors dumps_fails emptied_node serial_heap)).
    reflexivity.
  - eapply (proj1 (proj2 (json_errors dumps_fails (sample ";aa:bb;") serial_heap)));
      reflexivity.
  - eapply (proj2 (proj2 (json_errors dumps_fails serial_node serial_heap)));
      reflexivity.
Defined.

Lemma clean_properties_witness :
  clean serial_node serial_heap = (serial_node, serial_heap)
  /\ exists r : loc,
       properties (clean (sample ";aa:bb;") serial_heap).1 = Some r
       /\ serial_heap !! r = None
       /\ (clean (sample ";aa:bb;") serial_heap).2 !! r = Some []
       /\ forall r' : loc,
            r' <> r ->
            (clean (sample ";aa:bb;") serial_heap).2 !! r' = serial_heap !! r'.
Proof.
  split.
  - apply (proj1 (clean_properties serial_node serial_heap) 0%nat). reflexivity.
  - apply (proj2 (clean_properties (sample ";aa:bb;") serial_heap)). reflexivity.
Defined.

End AccessorEdges.
